(** * EcoAgent: extraction pipeline, severity rules and report assembly

    A shallow embedding of the Python modules
    - [src/ecoagent/utils/helpers.py]  (extract_text_from_response, parse_json_from_text),
    - [src/ecoagent/tools/severity_estimator.py],
    - [src/tools/waste_classifier.py], [src/tools/report_generator.py],
    - [src/eco_agent.py] ([EcoAgent.analyze_image]).

    Python values are modelled as they appear at run time: a [str] is a list
    of code points, the dictionaries built by the code or returned by
    [json.loads] are association lists in insertion order, and a Python
    exception is the [Raise] branch of a small result monad. The network
    calls are inputs: each collaborator call is given by what it returns
    (a response dictionary) or raises. *)

From Stdlib Require Import ZArith String Ascii List Bool Lia.
Set Warnings "-register-all".
Import ListNotations.
Open Scope Z_scope.

(* ------------------------------------------------------------------ *)
(** ** Python strings *)

(** A Python [str]: its code points. *)
Definition pystr := list Z.

(** A Rocq ASCII literal as a Python [str]. *)
Definition s2l (s : string) : pystr :=
  map (fun a => Z.of_nat (nat_of_ascii a)) (list_ascii_of_string s).

Definition str_eqb (a b : pystr) : bool :=
  if list_eq_dec Z.eq_dec a b then true else false.

(** [s.startswith(p)] *)
Fixpoint startswith (s p : pystr) : bool :=
  match p, s with
  | [], _ => true
  | c :: p', d :: s' => (c =? d) && startswith s' p'
  | _ :: _, [] => false
  end.

(** [needle in hay] for two [str]s: substring test. *)
Fixpoint str_contains (hay needle : pystr) : bool :=
  startswith hay needle ||
  match hay with
  | [] => false
  | _ :: hay' => str_contains hay' needle
  end.

(** [str.isspace] on one code point; also the class [\s] of [re] for [str]
    patterns (both use [Py_UNICODE_ISSPACE]). *)
Definition py_isspace (c : Z) : bool :=
  ((9 <=? c) && (c <=? 13)) || ((28 <=? c) && (c <=? 32)) ||
  (c =? 133) || (c =? 160) || (c =? 5760) ||
  ((8192 <=? c) && (c <=? 8202)) ||
  (c =? 8232) || (c =? 8233) || (c =? 8239) || (c =? 8287) || (c =? 12288).

Fixpoint lstrip (s : pystr) : pystr :=
  match s with
  | c :: s' => if py_isspace c then lstrip s' else s
  | [] => []
  end.

(** [s.strip()] *)
Definition strip (s : pystr) : pystr := rev (lstrip (rev (lstrip s))).

(** [sep.join(parts)] for a list of [str]. *)
Fixpoint join (sep : pystr) (parts : list pystr) : pystr :=
  match parts with
  | [] => []
  | [p] => p
  | p :: ps => p ++ sep ++ join sep ps
  end.

(** Decimal digits of a non-negative integer, most significant first. *)
Fixpoint digits_rev (fuel : nat) (n : Z) : list Z :=
  match fuel with
  | O => []
  | S f => if n <? 10 then [48 + n] else (48 + n mod 10) :: digits_rev f (n / 10)
  end.

Definition nat_digits (n : Z) : pystr :=
  rev (digits_rev (S (Z.to_nat (Z.log2 (Z.max 1 n)))) n).

(** [str(i)] for a Python [int]. *)
Definition int_str (z : Z) : pystr :=
  if z <? 0 then 45 :: nat_digits (- z) else nat_digits z.

(* ------------------------------------------------------------------ *)
(** ** Python values *)

(** The values the modelled code handles: [None], [bool], [int], [str],
    [list] and [dict] with [str] keys (insertion order kept). Floats, which
    [json.loads] may produce, are not modelled. *)
Inductive json : Type :=
| JNone
| JBool (b : bool)
| JInt (z : Z)
| JStr (s : pystr)
| JList (l : list json)
| JDict (d : list (pystr * json)).

Definition dict := list (pystr * json).

(** [d.get(k)]: the value of key [k], if any. *)
Fixpoint dict_lookup (k : pystr) (d : dict) : option json :=
  match d with
  | [] => None
  | (k', v) :: d' => if str_eqb k k' then Some v else dict_lookup k d'
  end.

(** [d[k] = v]: update in place, or append a new key at the end. *)
Fixpoint dict_set (k : pystr) (v : json) (d : dict) : dict :=
  match d with
  | [] => [(k, v)]
  | (k', v') :: d' => if str_eqb k k' then (k', v) :: d' else (k', v') :: dict_set k v d'
  end.

(** Truthiness: [bool(v)]. *)
Definition truthy (v : json) : bool :=
  match v with
  | JNone => false
  | JBool b => b
  | JInt z => negb (z =? 0)
  | JStr s => negb (Nat.eqb (length s) 0)
  | JList l => negb (Nat.eqb (length l) 0)
  | JDict d => negb (Nat.eqb (length d) 0)
  end.

(** [type(v).__name__] *)
Definition type_name (v : json) : pystr :=
  match v with
  | JNone => s2l "NoneType"
  | JBool _ => s2l "bool"
  | JInt _ => s2l "int"
  | JStr _ => s2l "str"
  | JList _ => s2l "list"
  | JDict _ => s2l "dict"
  end.

(* ------------------------------------------------------------------ *)
(** ** Python exceptions *)

(** An exception: its class name and [str(e)]. *)
Record exn : Type := Exn { exn_class : pystr; exn_msg : pystr }.

Inductive res (A : Type) : Type :=
| Ok (a : A)
| Raise (e : exn).
Arguments Ok {A} a.
Arguments Raise {A} e.

Definition bind {A B} (c : res A) (k : A -> res B) : res B :=
  match c with Ok a => k a | Raise e => Raise e end.

Notation "x <- c1 ;; c2" := (bind c1 (fun x => c2))
  (at level 61, c1 at next level, right associativity).

(** [try: c  except Exception as e: h(e)] *)
Definition try_except {A} (c : res A) (h : exn -> res A) : res A :=
  match c with Ok a => Ok a | Raise e => h e end.

Definition attribute_error (v : json) (attr : string) : exn :=
  Exn (s2l "AttributeError")
      ([39] ++ type_name v ++ s2l "' object has no attribute '" ++ s2l attr ++ [39]).

(** [v.get(k, default)] on a value that must be a [dict]. *)
Definition py_get (v : json) (k : string) (default : json) : res json :=
  match v with
  | JDict d => Ok (match dict_lookup (s2l k) d with Some x => x | None => default end)
  | _ => Raise (attribute_error v "get")
  end.

(** [k in v] for a [str] key [k]. *)
Definition py_in (k : pystr) (v : json) : res bool :=
  match v with
  | JDict d => Ok (match dict_lookup k d with Some _ => true | None => false end)
  | JList l => Ok (existsb (fun x => match x with JStr s => str_eqb k s | _ => false end) l)
  | JStr s => Ok (str_contains s k)
  | _ => Raise (Exn (s2l "TypeError")
                    (s2l "argument of type '" ++ type_name v ++ s2l "' is not iterable"))
  end.

(* ------------------------------------------------------------------ *)
(** ** The Unicode-dependent string methods *)

(** [str.lower], [str.upper] and [repr] of a [str] follow the Unicode
    database of the interpreter; they are parameters of the development. *)
Record runtime : Type := Runtime {
  str_lower : pystr -> pystr;
  str_upper : pystr -> pystr;
  str_repr : pystr -> pystr
}.

(** [repr(v)] *)
Fixpoint py_repr (rt : runtime) (v : json) : pystr :=
  match v with
  | JNone => s2l "None"
  | JBool true => s2l "True"
  | JBool false => s2l "False"
  | JInt z => int_str z
  | JStr s => str_repr rt s
  | JList l => [91] ++ join (s2l ", ") (map (py_repr rt) l) ++ [93]
  | JDict d =>
      [123] ++ join (s2l ", ") (map (fun kv => str_repr rt (fst kv) ++ s2l ": " ++ py_repr rt (snd kv)) d)
      ++ [125]
  end.

(** [str(v)], as used by f-strings. *)
Definition py_str (rt : runtime) (v : json) : pystr :=
  match v with JStr s => s | _ => py_repr rt v end.

(** [v.lower()] / [v.upper()] on a value that must be a [str]. *)
Definition py_lower (rt : runtime) (v : json) : res pystr :=
  match v with JStr s => Ok (str_lower rt s) | _ => Raise (attribute_error v "lower") end.

Definition py_upper (rt : runtime) (v : json) : res pystr :=
  match v with JStr s => Ok (str_upper rt s) | _ => Raise (attribute_error v "upper") end.

(* ------------------------------------------------------------------ *)
(** ** Regular expressions ([re]) *)

(** The constructs of the source's patterns, with the backtracking
    semantics of Python's [re]: alternatives and greedy repetitions try
    the longer branch first, lazy repetitions the shorter one. *)
Inductive regex : Type :=
| REps                                  (* the empty pattern *)
| RChar (p : Z -> bool)                 (* one code point of a class *)
| RCat (r1 r2 : regex)
| RAlt (r1 r2 : regex)                  (* [r1|r2] *)
| RStar (greedy : bool) (r : regex)     (* [r*] (greedy) or [r*?] *)
| ROpt (r : regex)                      (* [r?] *)
| RGroup (r : regex)                    (* the capturing group 1 *)
| RAhead (r : regex)                    (* [(?=r)] *)
| REnd.                                 (* [$] without MULTILINE *)

Fixpoint re_size (r : regex) : nat :=
  match r with
  | REps | RChar _ | REnd => 1
  | RCat r1 r2 | RAlt r1 r2 => S (re_size r1 + re_size r2)
  | RStar _ r1 | ROpt r1 | RGroup r1 | RAhead r1 => S (re_size r1)
  end.

(** Matching in continuation-passing style: [k] receives the rest of the
    input and the text captured by group 1. A repetition stops when an
    iteration consumes nothing. *)
Fixpoint re_match {A : Type} (fuel : nat) (r : regex) (s : pystr) (cap : option pystr)
  (k : pystr -> option pystr -> option A) : option A :=
  match fuel with
  | O => None
  | S f =>
    match r with
    | REps => k s cap
    | RChar p => match s with c :: s' => if p c then k s' cap else None | [] => None end
    | RCat r1 r2 => re_match f r1 s cap (fun s1 c1 => re_match f r2 s1 c1 k)
    | RAlt r1 r2 =>
        match re_match f r1 s cap k with Some x => Some x | None => re_match f r2 s cap k end
    | RStar true r1 =>
        match re_match f r1 s cap (fun s1 c1 =>
                if (length s1 <? length s)%nat then re_match f (RStar true r1) s1 c1 k else None) with
        | Some x => Some x
        | None => k s cap
        end
    | RStar false r1 =>
        match k s cap with
        | Some x => Some x
        | None => re_match f r1 s cap (fun s1 c1 =>
                    if (length s1 <? length s)%nat then re_match f (RStar false r1) s1 c1 k else None)
        end
    | ROpt r1 => match re_match f r1 s cap k with Some x => Some x | None => k s cap end
    | RGroup r1 => re_match f r1 s cap (fun s1 _ => k s1 (Some (firstn (length s - length s1) s)))
    | RAhead r1 =>
        match re_match (A := unit) f r1 s cap (fun _ _ => Some tt) with
        | Some _ => k s cap
        | None => None
        end
    | REnd => match s with [] => k s cap | [10] => k s cap | _ => None end
    end
  end.

(** Enough fuel: along one chain of calls, every repetition runs at most
    [length s] iterations, and the nesting of the pattern adds [re_size r]. *)
Definition re_fuel (r : regex) (s : pystr) : nat := S ((length s + 1) * (re_size r + 1)).

(** A match anchored at the start of [s]: the rest of the input and group 1. *)
Definition re_match_at (r : regex) (s : pystr) : option (pystr * option pystr) :=
  re_match (re_fuel r s) r s None (fun rest cap => Some (rest, cap)).

(** [re.search(r, s)]: the first position where [r] matches. *)
Fixpoint re_search (r : regex) (s : pystr) : option (pystr * option pystr) :=
  match re_match_at r s with
  | Some m => Some m
  | None => match s with [] => None | _ :: s' => re_search r s' end
  end.

(** [re.findall(r, s)]: every non-overlapping match, left to right, as the
    whole matched text and group 1. (The patterns of the source never match
    the empty string.) *)
Fixpoint findall_go (fuel : nat) (r : regex) (s : pystr) : list (pystr * option pystr) :=
  match fuel with
  | O => []
  | S f =>
    match re_match_at r s with
    | Some (rest, cap) =>
        (firstn (length s - length rest) s, cap) ::
        (if (length rest <? length s)%nat then findall_go f r rest
         else match s with [] => [] | _ :: s' => findall_go f r s' end)
    | None => match s with [] => [] | _ :: s' => findall_go f r s' end
    end
  end.

Definition findall (r : regex) (s : pystr) : list (pystr * option pystr) :=
  findall_go (S (length s)) r s.

(** Pattern building blocks. *)
Definition chr (c : Z) : regex := RChar (fun x => x =? c).
Definition any_char : regex := RChar (fun _ => true).          (* [.] under DOTALL *)
Definition space : regex := RChar py_isspace.                  (* [\s] *)
Definition plus (r : regex) : regex := RCat r (RStar true r).  (* [r+] *)

Fixpoint lit (s : list Z) : regex :=
  match s with [] => REps | c :: s' => RCat (chr c) (lit s') end.

(** IGNORECASE on an ASCII pattern letter: [re] compares simple lowercase
    mappings, plus its table of extra equivalences (i/U+0131, s/U+017F);
    U+0130 and the Kelvin sign U+212A lowercase to [i] and [k]. *)
Definition fold_ascii (x : Z) : Z :=
  if (65 <=? x) && (x <=? 90) then x + 32
  else if x =? 304 then 105
  else if x =? 305 then 105
  else if x =? 383 then 115
  else if x =? 8490 then 107
  else x.

Definition chr_ci (c : Z) : regex := RChar (fun x => fold_ascii x =? fold_ascii c).

Fixpoint lit_ci (s : list Z) : regex :=
  match s with [] => REps | c :: s' => RCat (chr_ci c) (lit_ci s') end.

Definition alts (rs : list regex) : regex :=
  match rs with
  | [] => REps
  | r :: rs' => fold_left (fun acc x => RAlt acc x) rs' r
  end.

(* ------------------------------------------------------------------ *)
(** ** [json.loads] (CPython's C scanner, strict mode) *)

(** [json.decoder.WHITESPACE]: space, tab, newline, carriage return. *)
Definition is_ws (c : Z) : bool := (c =? 32) || (c =? 9) || (c =? 10) || (c =? 13).

Fixpoint skip_ws (s : pystr) : pystr :=
  match s with c :: s' => if is_ws c then skip_ws s' else s | [] => [] end.

Definition is_digit (c : Z) : bool := (48 <=? c) && (c <=? 57).

Definition hex_val (c : Z) : option Z :=
  if is_digit c then Some (c - 48)
  else if (97 <=? c) && (c <=? 102) then Some (c - 87)
  else if (65 <=? c) && (c <=? 70) then Some (c - 55)
  else None.

(** [c <<= 4; c |= digit] *)
Definition hex_acc (c d : Z) : Z := Z.lor (Z.shiftl c 4) d.

Definition hex4 (a b c d : Z) : option Z :=
  match hex_val a, hex_val b, hex_val c, hex_val d with
  | Some x1, Some x2, Some x3, Some x4 => Some (hex_acc (hex_acc (hex_acc (hex_acc 0 x1) x2) x3) x4)
  | _, _, _, _ => None
  end.

Definition is_high_surrogate (c : Z) : bool := (55296 <=? c) && (c <=? 56319).   (* D800..DBFF *)
Definition is_low_surrogate (c : Z) : bool := (56320 <=? c) && (c <=? 57343).    (* DC00..DFFF *)

(** [Py_UNICODE_JOIN_SURROGATES] *)
Definition join_surrogates (hi lo : Z) : Z :=
  Z.lor (Z.shiftl (Z.land hi 1023) 10) (Z.land lo 1023) + 65536.

(** The one-character escapes: quote, backslash, slash, b, f, n, r, t. *)
Definition simple_escape (e : Z) : option Z :=
  if e =? 34 then Some 34 else if e =? 92 then Some 92 else if e =? 47 then Some 47
  else if e =? 98 then Some 8 else if e =? 102 then Some 12 else if e =? 110 then Some 10
  else if e =? 114 then Some 13 else if e =? 116 then Some 9 else None.

Definition cons_fst {B} (x : Z) (r : option (pystr * B)) : option (pystr * B) :=
  match r with Some (l, rest) => Some (x :: l, rest) | None => None end.

(** [scanstring_unicode]: the body of a string literal after its opening
    quote; the decoded text and the input after the closing quote. A high
    surrogate escape followed by [\u] and a low surrogate escape (with at
    least one more character after it) is joined into one code point. *)
Fixpoint scan_str (s : pystr) : option (pystr * pystr) :=
  match s with
  | [] => None                                        (* Unterminated string *)
  | c :: s1 =>
    if c =? 34 then Some ([], s1)
    else if c =? 92 then
      match s1 with
      | [] => None
      | e :: s2 =>
        if e =? 117 then
          match s2 with
          | a :: b :: c' :: d :: s3 =>
            match hex4 a b c' d with
            | None => None                             (* Invalid \uXXXX escape *)
            | Some u =>
              if is_high_surrogate u then
                match s3 with
                | x :: y :: a2 :: b2 :: c2 :: d2 :: s4 =>
                  if (x =? 92) && (y =? 117) && negb (Nat.eqb (length s4) 0) then
                    match hex4 a2 b2 c2 d2 with
                    | None => None
                    | Some u2 =>
                      if is_low_surrogate u2 then cons_fst (join_surrogates u u2) (scan_str s4)
                      else cons_fst u (scan_str s3)
                    end
                  else cons_fst u (scan_str s3)
                | _ => cons_fst u (scan_str s3)
                end
              else cons_fst u (scan_str s3)
            end
          | _ => None
          end
        else match simple_escape e with
             | Some x => cons_fst x (scan_str s2)
             | None => None                            (* Invalid \escape *)
             end
      end
    else if c <? 32 then None                          (* Invalid control character *)
    else cons_fst c (scan_str s1)
  end.

Fixpoint take_digits (s : pystr) : pystr * pystr :=
  match s with
  | c :: s' => if is_digit c then let (ds, r) := take_digits s' in (c :: ds, r) else ([], s)
  | [] => ([], [])
  end.

Definition digits_value (ds : pystr) : Z := fold_left (fun acc d => acc * 10 + (d - 48)) ds 0.

(** [_match_number_unicode] after the integer part: does a fraction or an
    exponent follow (a float literal)? *)
Definition float_follows (rest : pystr) : bool :=
  match rest with
  | c :: d :: _ =>
    if (c =? 46) then is_digit d
    else if (c =? 101) || (c =? 69) then
      let t := tl rest in
      let t' := match t with
                | sg :: (_ :: _) as t2 => if (sg =? 45) || (sg =? 43) then t2 else t
                | _ => t
                end in
      match t' with x :: _ => is_digit x | [] => false end
    else false
  | _ => false
  end.

(** [_match_number_unicode]: an optional minus sign, then [0] or a non-zero
    digit followed by digits; literals with a fraction
    or an exponent are Python floats, which the model does not carry. *)
Definition scan_number (s : pystr) : option (json * pystr) :=
  let '(neg, s1) := match s with
                    | c :: t => if c =? 45 then (true, t) else (false, s)
                    | [] => (false, s)
                    end in
  let int_part :=
    match s1 with
    | c :: t =>
      if (49 <=? c) && (c <=? 57) then let (ds, r) := take_digits t in Some (c :: ds, r)
      else if c =? 48 then Some ([c], t)
      else None
    | [] => None
    end in
  match int_part with
  | None => None
  | Some (ds, rest) =>
    if float_follows rest then None
    else Some (JInt (if neg then - digits_value ds else digits_value ds), rest)
  end.

(** [_parse_object_unicode] after the opening brace and the white space
    behind it; [scan] is [scan_once_unicode] and [n] bounds the number of
    members. Duplicate keys keep their first position and their last value
    ([PyDict_SetItem]). *)
Fixpoint parse_object_loop (scan : pystr -> option (json * pystr)) (n : nat) (acc : dict)
  (s0 : pystr) : option (json * pystr) :=
  match n with
  | O => None
  | S n' =>
    match s0 with
    | q :: s1 =>
      if q =? 34 then
        match scan_str s1 with
        | None => None
        | Some (key, s2) =>
          match skip_ws s2 with
          | col :: s3 =>
            if col =? 58 then
              match scan (skip_ws s3) with
              | None => None
              | Some (v, s4) =>
                let acc' := dict_set key v acc in
                match skip_ws s4 with
                | d :: s5 =>
                  if d =? 125 then Some (JDict acc', s5)
                  else if d =? 44 then parse_object_loop scan n' acc' (skip_ws s5)
                  else None
                | [] => None
                end
              end
            else None
          | [] => None
          end
        end
      else None
    | [] => None
    end
  end.

(** [_parse_array_unicode] after the opening bracket and the white space
    behind it. *)
Fixpoint parse_array_loop (scan : pystr -> option (json * pystr)) (n : nat) (acc : list json)
  (s0 : pystr) : option (json * pystr) :=
  match n with
  | O => None
  | S n' =>
    match scan s0 with
    | None => None
    | Some (v, s1) =>
      match skip_ws s1 with
      | d :: s2 =>
        if d =? 93 then Some (JList (acc ++ [v]), s2)
        else if d =? 44 then parse_array_loop scan n' (acc ++ [v]) (skip_ws s2)
        else None
      | [] => None
      end
    end
  end.

(** [scan_once_unicode]. The interpreter's limit on the length of integer
    literals is not modelled. *)
Fixpoint scan_value (fuel : nat) (s : pystr) {struct fuel} : option (json * pystr) :=
  match fuel with
  | O => None
  | S f =>
    match s with
    | [] => None
    | c :: t =>
      if c =? 34 then
        match scan_str t with Some (str, rest) => Some (JStr str, rest) | None => None end
      else if c =? 123 then
        match skip_ws t with
        | [] => None
        | c' :: t' =>
          if c' =? 125 then Some (JDict [], t')
          else parse_object_loop (scan_value f) (S (length t)) [] (c' :: t')
        end
      else if c =? 91 then
        match skip_ws t with
        | [] => None
        | c' :: t' =>
          if c' =? 93 then Some (JList [], t')
          else parse_array_loop (scan_value f) (S (length t)) [] (c' :: t')
        end
      else if startswith s (s2l "null") then Some (JNone, skipn 4 s)
      else if startswith s (s2l "true") then Some (JBool true, skipn 4 s)
      else if startswith s (s2l "false") then Some (JBool false, skipn 5 s)
      else scan_number s
    end
  end.

(** [json.loads(s)]: [None] stands for [JSONDecodeError]. *)
Definition json_loads (s : pystr) : option json :=
  if startswith s [65279] then None                    (* Unexpected UTF-8 BOM *)
  else match scan_value (S (length s)) (skip_ws s) with
       | Some (v, rest) => match skip_ws rest with [] => Some v | _ => None end
       | None => None
       end.

(* ------------------------------------------------------------------ *)
(** ** [json.dumps] (default arguments: [ensure_ascii], separators [", "] and [": "]) *)

Definition hexdigit (n : Z) : Z := if n <? 10 then 48 + n else 87 + n.   (* Py_hexdigits *)

Definition u_escape (c : Z) : pystr :=
  [92; 117; hexdigit (Z.land (Z.shiftr c 12) 15); hexdigit (Z.land (Z.shiftr c 8) 15);
   hexdigit (Z.land (Z.shiftr c 4) 15); hexdigit (Z.land c 15)].

(** [Py_UNICODE_HIGH_SURROGATE], [Py_UNICODE_LOW_SURROGATE] *)
Definition high_surrogate (c : Z) : Z := 55296 - Z.shiftr 65536 10 + Z.shiftr c 10.
Definition low_surrogate (c : Z) : Z := 56320 + Z.land c 1023.

(** [ascii_escape_unichar], with [S_CHAR] for the characters kept as is. *)
Definition ascii_escape_char (c : Z) : pystr :=
  if (32 <=? c) && (c <=? 126) && negb (c =? 92) && negb (c =? 34) then [c]
  else if c =? 92 then [92; 92]
  else if c =? 34 then [92; 34]
  else if c =? 8 then [92; 98]
  else if c =? 12 then [92; 102]
  else if c =? 10 then [92; 110]
  else if c =? 13 then [92; 114]
  else if c =? 9 then [92; 116]
  else if 65536 <=? c then u_escape (high_surrogate c) ++ u_escape (low_surrogate c)
  else u_escape c.

Definition dump_str (s : pystr) : pystr := [34] ++ flat_map ascii_escape_char s ++ [34].

Fixpoint json_dumps (v : json) : pystr :=
  match v with
  | JNone => s2l "null"
  | JBool true => s2l "true"
  | JBool false => s2l "false"
  | JInt z => int_str z
  | JStr s => dump_str s
  | JList l => [91] ++ join (s2l ", ") (map json_dumps l) ++ [93]
  | JDict d =>
      [123] ++ join (s2l ", ") (map (fun kv => dump_str (fst kv) ++ s2l ": " ++ json_dumps (snd kv)) d)
      ++ [125]
  end.




(* ------------------------------------------------------------------ *)
(** ** [parse_json_from_text] (helpers.py) *)

(** The pattern of the second strategy under DOTALL: three backticks, an
    optional [json] tag, white space, the group (an opening brace, a lazy run
    of any characters, a closing brace), white space, three backticks. *)
Definition code_block_re : regex :=
  RCat (lit (s2l "```"))
  (RCat (ROpt (lit (s2l "json")))
  (RCat (RStar true space)
  (RCat (RGroup (RCat (chr 123) (RCat (RStar false any_char) (chr 125))))
  (RCat (RStar true space)
        (lit (s2l "```")))))).

(** The pattern of the third strategy: an opening brace, non-braces, any
    number of (brace, non-braces, closing brace, non-braces), a closing brace. *)
Definition not_brace : regex := RChar (fun c => negb ((c =? 123) || (c =? 125))).

Definition brace_re : regex :=
  RCat (chr 123)
  (RCat (RStar true not_brace)
  (RCat (RStar true (RCat (chr 123) (RCat (RStar true not_brace) (RCat (chr 125) (RStar true not_brace)))))
        (chr 125))).

(** The first candidate that [json.loads] accepts. *)
Fixpoint first_loads (cands : list pystr) : option json :=
  match cands with
  | [] => None
  | m :: ms => match json_loads m with Some v => Some v | None => first_loads ms end
  end.

(** [parse_json_from_text(text)]: [None] is the Python [None] returned at
    the end; a [Some v] is the value of the [json.loads] call that
    succeeded (which may itself be the Python [None], [Some JNone]). *)
Definition parse_json_from_text (text : pystr) : option json :=
  match json_loads text with
  | Some v => Some v
  | None =>
    let from_block :=
      match findall code_block_re text with
      | (_, Some m) :: _ => json_loads m
      | _ => None
      end in
    match from_block with
    | Some v => Some v
    | None => first_loads (map fst (findall brace_re text))
    end
  end.

(** The Python value a caller receives. *)
Definition parsed_value (r : option json) : json :=
  match r with Some v => v | None => JNone end.

(* ------------------------------------------------------------------ *)
(** ** Subscripts and iteration *)

Definition type_error (msg : pystr) : exn := Exn (s2l "TypeError") msg.
Definition key_error (k : pystr) : exn := Exn (s2l "KeyError") ([39] ++ k ++ [39]).

(** [v[k]] for a [str] key. *)
Definition py_getitem (v : json) (k : string) : res json :=
  match v with
  | JDict d => match dict_lookup (s2l k) d with Some x => Ok x | None => Raise (key_error (s2l k)) end
  | JList _ => Raise (type_error (s2l "list indices must be integers or slices, not str"))
  | JStr _ => Raise (type_error (s2l "string indices must be integers, not 'str'"))
  | _ => Raise (type_error ([39] ++ type_name v ++ s2l "' object is not subscriptable"))
  end.

(** [v[0]] *)
Definition py_getitem0 (v : json) : res json :=
  match v with
  | JList (x :: _) => Ok x
  | JList [] => Raise (Exn (s2l "IndexError") (s2l "list index out of range"))
  | JStr (c :: _) => Ok (JStr [c])
  | JStr [] => Raise (Exn (s2l "IndexError") (s2l "string index out of range"))
  | JDict _ => Raise (Exn (s2l "KeyError") (s2l "0"))   (* JSON keys are strings, never 0 *)
  | _ => Raise (type_error ([39] ++ type_name v ++ s2l "' object is not subscriptable"))
  end.

(** [for x in v] *)
Definition py_iter (v : json) : res (list json) :=
  match v with
  | JList l => Ok l
  | JStr s => Ok (map (fun c => JStr [c]) s)
  | JDict d => Ok (map (fun kv => JStr (fst kv)) d)
  | _ => Raise (type_error ([39] ++ type_name v ++ s2l "' object is not iterable"))
  end.

Fixpoint map_res {A B} (f : A -> res B) (l : list A) : res (list B) :=
  match l with
  | [] => Ok []
  | x :: l' => y <- f x ;; ys <- map_res f l' ;; Ok (y :: ys)
  end.

(** [sep.join(v)] *)
Definition py_join (sep : pystr) (v : json) : res pystr :=
  match v with
  | JList _ | JStr _ | JDict _ =>
    items <- py_iter v ;;
    strs <- map_res (fun x => match x with
                              | JStr s => Ok s
                              | _ => Raise (type_error (s2l "sequence item: expected str instance, "
                                                        ++ type_name x ++ s2l " found"))
                              end) items ;;
    Ok (join sep strs)
  | _ => Raise (type_error (s2l "can only join an iterable"))
  end.

(** The [str] receiver of a method call such as [text.startswith(...)]. *)
Definition as_str (v : json) (meth : string) : res pystr :=
  match v with JStr s => Ok s | _ => Raise (attribute_error v meth) end.

(** [d[k] = v] on a value known to be a [dict]. *)
Definition json_set (v : json) (k : string) (x : json) : json :=
  match v with JDict d => JDict (dict_set (s2l k) x d) | _ => v end.

(* ------------------------------------------------------------------ *)
(** ** [extract_text_from_response] (helpers.py) *)

(** The failure sentinel that marks an error text. *)
Definition ERROR_PREFIX : pystr := s2l "ERROR:".

Definition extract_text_from_response (rt : runtime) (response : json) : res json :=
  err <- py_get response "error" JNone ;;
  if truthy err then
    msg <- py_get response "message" (JStr (s2l "Unknown error")) ;;
    Ok (JStr (s2l "ERROR: " ++ py_str rt msg))
  else
    match (c <- py_getitem response "choices" ;;
           c0 <- py_getitem0 c ;;
           m <- py_getitem c0 "message" ;;
           py_getitem m "content") with
    | Ok x => Ok x
    | Raise e =>
      if str_eqb (exn_class e) (s2l "KeyError") || str_eqb (exn_class e) (s2l "IndexError")
      then Ok (JStr (s2l "ERROR: Failed to parse response - " ++ exn_msg e))
      else Raise e
    end.

(* ------------------------------------------------------------------ *)
(** ** severity_estimator.py *)

Record level_info : Type := LevelInfo {
  li_level : Z; li_description : pystr; li_response_time : pystr }.

Definition SEVERITY_LEVELS : list (pystr * level_info) :=
  [ (s2l "critical", LevelInfo 5 (s2l "Immediate threat to public health or environment")
                               (s2l "Immediate (within 24 hours)"));
    (s2l "high", LevelInfo 4 (s2l "Significant environmental or health concern")
                           (s2l "Urgent (within 3 days)"));
    (s2l "medium", LevelInfo 3 (s2l "Moderate concern requiring attention")
                             (s2l "Standard (within 1 week)"));
    (s2l "low", LevelInfo 2 (s2l "Minor issue, routine cleanup needed")
                          (s2l "Regular schedule (within 2 weeks)"));
    (s2l "minimal", LevelInfo 1 (s2l "Minimal impact, preventive action suggested")
                              (s2l "As resources permit")) ].

Fixpoint levels_lookup (k : pystr) (t : list (pystr * level_info)) : option level_info :=
  match t with
  | [] => None
  | (k', i) :: t' => if str_eqb k k' then Some i else levels_lookup k t'
  end.

Definition medium_info : level_info :=
  LevelInfo 3 (s2l "Moderate concern requiring attention") (s2l "Standard (within 1 week)").

Definition critical_keywords : list pystr :=
  [s2l "hazardous"; s2l "chemical"; s2l "toxic"; s2l "oil spill"; s2l "sewage"; s2l "battery"; s2l "medical"].
Definition high_keywords : list pystr :=
  [s2l "e-waste"; s2l "electronic"; s2l "metal"; s2l "large amount"; s2l "widespread"; s2l "river"; s2l "water body"].
Definition low_keywords : list pystr :=
  [s2l "minimal"; s2l "small"; s2l "single item"; s2l "paper"; s2l "cardboard"].

(** [any(keyword in field for keyword in kws)] *)
Definition any_in (kws : list pystr) (field : pystr) : bool :=
  existsb (fun kw => str_contains field kw) kws.

(** Lines 56-80: the score after the keyword checks. *)
Definition keyword_score (waste_type description : pystr) : Z :=
  if any_in critical_keywords waste_type then 5
  else if any_in critical_keywords description then 5
  else if str_contains waste_type (s2l "hazardous") || any_in high_keywords waste_type then 4
  else if any_in high_keywords description then 4
  else if any_in low_keywords waste_type then 2
  else if any_in low_keywords description then 2
  else 3.

(** Lines 82-84. *)
Definition confidence_adjust (confidence : pystr) (score : Z) : Z :=
  if str_eqb confidence (s2l "low") then Z.max 2 (score - 1) else score.

(** Lines 86-95. *)
Definition severity_level_of (score : Z) : pystr :=
  if 5 <=? score then s2l "critical"
  else if 4 <=? score then s2l "high"
  else if score =? 2 then s2l "low"
  else if score =? 1 then s2l "minimal"
  else s2l "medium".

Definition estimate_severity_rule_based (rt : runtime) (classification : json) : res json :=
  wt <- py_get classification "waste_type" (JStr []) ;;
  waste_type <- py_lower rt wt ;;
  cf <- py_get classification "confidence" (JStr (s2l "low")) ;;
  confidence <- py_lower rt cf ;;
  ds <- py_get classification "description" (JStr []) ;;
  description <- py_lower rt ds ;;
  tg <- py_get classification "tags" (JList []) ;;
  tag_items <- py_iter tg ;;
  _tags <- map_res (py_lower rt) tag_items ;;
  let severity_score := confidence_adjust confidence (keyword_score waste_type description) in
  let severity_level := severity_level_of severity_score in
  match levels_lookup severity_level SEVERITY_LEVELS with
  | None => Raise (key_error severity_level)
  | Some severity_info =>
    Ok (JDict [ (s2l "severity", JStr severity_level);
                (s2l "severity_score", JInt severity_score);
                (s2l "description", JStr (li_description severity_info));
                (s2l "response_time", JStr (li_response_time severity_info));
                (s2l "method", JStr (s2l "rule-based")) ])
  end.

(** [SEVERITY_LEVELS.get(v, SEVERITY_LEVELS["medium"])]: a list or a dict
    key is unhashable. *)
Definition severity_levels_get (v : json) : res level_info :=
  match v with
  | JStr s => Ok (match levels_lookup s SEVERITY_LEVELS with Some i => i | None => medium_info end)
  | JList _ | JDict _ => Raise (type_error (s2l "unhashable type: '" ++ type_name v ++ [39]))
  | _ => Ok medium_info
  end.

(** [estimate_severity_with_llm]: [call] is what [call_nemotron_llm]
    returns (a response dictionary) or raises (a missing API key). *)
Definition estimate_severity_with_llm (rt : runtime) (classification : json) (location : pystr)
  (call : res json) : res json :=
  try_except
    (_ <- py_get classification "waste_type" JNone ;;        (* the prompt *)
     _ <- py_get classification "description" JNone ;;
     _ <- py_get classification "confidence" JNone ;;
     response <- call ;;
     text_response <- extract_text_from_response rt response ;;
     text <- as_str text_response "startswith" ;;
     if startswith text ERROR_PREFIX then estimate_severity_rule_based rt classification
     else
       let parsed_json := parsed_value (parse_json_from_text text) in
       has_severity <- (if truthy parsed_json then py_in (s2l "severity") parsed_json else Ok false) ;;
       if has_severity then
         severity_level <- py_get parsed_json "severity" (JStr (s2l "medium")) ;;
         severity_info <- severity_levels_get severity_level ;;
         score <- py_get parsed_json "severity_score" (JInt (li_level severity_info)) ;;
         reasoning <- py_get parsed_json "reasoning" (JStr []) ;;
         health_risk <- py_get parsed_json "health_risk" (JStr (s2l "Assessment pending")) ;;
         impact <- py_get parsed_json "environmental_impact" (JStr (s2l "Assessment pending")) ;;
         factors <- py_get parsed_json "urgency_factors" (JList []) ;;
         Ok (JDict [ (s2l "severity", severity_level);
                     (s2l "severity_score", score);
                     (s2l "description", JStr (li_description severity_info));
                     (s2l "response_time", JStr (li_response_time severity_info));
                     (s2l "reasoning", reasoning);
                     (s2l "health_risk", health_risk);
                     (s2l "environmental_impact", impact);
                     (s2l "urgency_factors", factors);
                     (s2l "method", JStr (s2l "llm-based")) ])
       else estimate_severity_rule_based rt classification)
    (fun e =>
       result <- estimate_severity_rule_based rt classification ;;
       Ok (json_set result "llm_error" (JStr (exn_msg e)))).

Definition estimate_severity (rt : runtime) (classification : json) (location : pystr)
  (use_llm : bool) (call : res json) : res json :=
  if use_llm then estimate_severity_with_llm rt classification location call
  else estimate_severity_rule_based rt classification.

(* ------------------------------------------------------------------ *)
(** ** waste_classifier.py *)

Definition _create_fallback_classification (error_msg : pystr) : json :=
  JDict [ (s2l "waste_type", JStr (s2l "Unknown - Classification Failed"));
          (s2l "confidence", JStr (s2l "low"));
          (s2l "description", JStr (s2l "Unable to classify waste due to an error. Please try again or provide a clearer image."));
          (s2l "tags", JList [JStr (s2l "error"); JStr (s2l "unclassified")]);
          (s2l "visible_items", JList []);
          (s2l "raw_response", JStr error_msg);
          (s2l "error", JBool true) ].

(** [all(k in v for k in ks)], short-circuiting. *)
Fixpoint all_in (ks : list pystr) (v : json) : res bool :=
  match ks with
  | [] => Ok true
  | k :: ks' => b <- py_in k v ;; if b then all_in ks' v else Ok false
  end.

(** [classify_waste]: [call] is what [call_nemotron_vlm] returns or raises. *)
Definition classify_waste (rt : runtime) (call : res json) : res json :=
  try_except
    (response <- call ;;
     text_response <- extract_text_from_response rt response ;;
     text <- as_str text_response "startswith" ;;
     if startswith text ERROR_PREFIX then Ok (_create_fallback_classification text)
     else
       let parsed_json := parsed_value (parse_json_from_text text) in
       complete <- (if truthy parsed_json
                    then all_in [s2l "waste_type"; s2l "confidence"; s2l "description"] parsed_json
                    else Ok false) ;;
       if complete then
         wt <- py_get parsed_json "waste_type" (JStr (s2l "Unknown")) ;;
         cf <- py_get parsed_json "confidence" (JStr (s2l "low")) ;;
         ds <- py_get parsed_json "description" (JStr []) ;;
         tg <- py_get parsed_json "tags" (JList []) ;;
         vi <- py_get parsed_json "visible_items" (JList []) ;;
         Ok (JDict [ (s2l "waste_type", wt); (s2l "confidence", cf); (s2l "description", ds);
                     (s2l "tags", tg); (s2l "visible_items", vi); (s2l "raw_response", JStr text) ])
       else
         Ok (JDict [ (s2l "waste_type", JStr (s2l "General litter/mixed waste"));
                     (s2l "confidence", JStr (s2l "low"));
                     (s2l "description", JStr text);
                     (s2l "tags", JList []); (s2l "visible_items", JList []);
                     (s2l "raw_response", JStr text) ]))
    (fun e => Ok (_create_fallback_classification
                    (s2l "Exception during classification: " ++ exn_msg e))).

(* ------------------------------------------------------------------ *)
(** ** report_generator.py *)

(** The two [datetime.now()] readings of a report: [strftime] with
    ["%Y-%m-%d %H:%M:%S"] and with ["%Y%m%d%H%M%S"]. *)
Record clock : Type := Clock { now_timestamp : pystr; now_compact : pystr }.

Definition nl : pystr := [10].

(** The lookahead that ends a section: the first form, a blank line, a
    double star, one or two hashes and a space, or the end; the second form
    a blank line followed by a double star, or the same last two. *)
Definition hash_heading : regex := RCat (chr 35) (RCat (ROpt (chr 35)) space).
Definition stop_a : regex :=
  RAhead (alts [lit [10; 10]; lit [42; 42]; hash_heading; REnd]).
Definition stop_b : regex :=
  RAhead (alts [lit [10; 10; 42; 42]; hash_heading; REnd]).

(** [heading[:\s]+(.*?)stop] under DOTALL and IGNORECASE. *)
Definition section_re (headings : list pystr) (stop : regex) : regex :=
  RCat (alts (map lit_ci headings))
  (RCat (plus (RChar (fun c => (c =? 58) || py_isspace c)))
  (RCat (RGroup (RStar false any_char)) stop)).

(** The five patterns, in the order of the [patterns] dict. The optional
    plural letters become alternatives in the same order as the greedy [?]
    tries them (with the letter first). *)
Definition section_patterns : list (pystr * regex) :=
  [ (s2l "executive_summary", section_re [s2l "Executive Summary"; s2l "Summary"] stop_a);
    (s2l "detailed_findings", section_re [s2l "Detailed Findings"; s2l "Findings"; s2l "Observations"] stop_b);
    (s2l "risk_assessment", section_re [s2l "Risk Assessment"; s2l "Risks"; s2l "Risk"] stop_b);
    (s2l "recommended_actions",
       section_re [s2l "Recommended Actions"; s2l "Recommended Action"; s2l "Actions"; s2l "Action"; s2l "Recommendations"; s2l "Recommendation"] stop_b);
    (s2l "priority_level", section_re [s2l "Priority Level"; s2l "Priority"] stop_a) ].

(** [match.group(1).strip()] if [re.search] finds the pattern, else the
    initial empty string. *)
Definition section_value (r : regex) (report_text : pystr) : pystr :=
  match re_search r report_text with
  | Some (_, Some g) => strip g
  | _ => []
  end.

Definition _parse_report_sections (report_text : pystr) : list (pystr * pystr) :=
  let sections := map (fun kr => (fst kr, section_value (snd kr) report_text)) section_patterns in
  if existsb (fun kv => negb (Nat.eqb (length (snd kv)) 0)) sections then sections
  else map (fun kv => if str_eqb (fst kv) (s2l "executive_summary") then (fst kv, report_text) else kv)
           sections.

Definition sections_json (secs : list (pystr * pystr)) : json :=
  JDict (map (fun kv => (fst kv, JStr (snd kv))) secs).

Definition _create_fallback_report (rt : runtime) (classification severity : json)
  (location error_msg : pystr) (clk : clock) : res json :=
  waste_type <- py_get classification "waste_type" (JStr (s2l "Unknown")) ;;
  severity_level <- py_get severity "severity" (JStr (s2l "unknown")) ;;
  description <- py_get classification "description" (JStr (s2l "No description available")) ;;
  confidence <- py_get classification "confidence" (JStr (s2l "unknown")) ;;
  level_upper <- py_upper rt severity_level ;;
  score <- py_get severity "severity_score" (JStr (s2l "N/A")) ;;
  response_time <- py_get severity "response_time" (JStr (s2l "Standard")) ;;
  level_upper2 <- py_upper rt severity_level ;;
  let wt := py_str rt waste_type in
  let fallback_text :=
    s2l "ENVIRONMENTAL INCIDENT REPORT (Auto-Generated)" ++ nl ++ nl ++
    s2l "Executive Summary:" ++ nl ++
    wt ++ s2l " detected at " ++
      (if Nat.eqb (length location) 0 then s2l "unspecified location" else location) ++
      s2l " with " ++ py_str rt severity_level ++ s2l " severity level." ++ nl ++ nl ++
    s2l "Detailed Findings:" ++ nl ++
    s2l "- Waste Type: " ++ wt ++ nl ++
    s2l "- Description: " ++ py_str rt description ++ nl ++
    s2l "- Confidence Level: " ++ py_str rt confidence ++ nl ++ nl ++
    s2l "Risk Assessment:" ++ nl ++
    s2l "- Severity Level: " ++ level_upper ++ nl ++
    s2l "- Severity Score: " ++ py_str rt score ++ s2l "/5" ++ nl ++
    s2l "- Response Time Required: " ++ py_str rt response_time ++ nl ++ nl ++
    s2l "Recommended Actions:" ++ nl ++
    s2l "- Dispatch appropriate cleanup crew" ++ nl ++
    s2l "- Assess the extent of contamination" ++ nl ++
    s2l "- Implement containment measures if necessary" ++ nl ++
    s2l "- Follow standard protocols for " ++ wt ++ nl ++ nl ++
    s2l "Priority Level: " ++ level_upper2 ++ nl ++ nl ++
    s2l "Note: This is an auto-generated report. Manual review recommended." in
  risk_upper <- py_upper rt severity_level ;;
  priority_upper <- py_upper rt severity_level ;;
  m_conf <- py_get classification "confidence" JNone ;;
  m_score <- py_get severity "severity_score" JNone ;;
  m_time <- py_get severity "response_time" JNone ;;
  Ok (JDict
    [ (s2l "report_id", JStr (s2l "ECO-" ++ now_compact clk));
      (s2l "timestamp", JStr (now_timestamp clk));
      (s2l "location", JStr location);
      (s2l "waste_type", waste_type);
      (s2l "severity", severity_level);
      (s2l "full_report", JStr fallback_text);
      (s2l "sections", JDict
         [ (s2l "executive_summary", JStr (wt ++ s2l " detected with " ++ py_str rt severity_level ++ s2l " severity"));
           (s2l "detailed_findings", JStr (py_str rt description));
           (s2l "risk_assessment", JStr (risk_upper ++ s2l " priority"));
           (s2l "recommended_actions", JStr (s2l "Standard cleanup and assessment required"));
           (s2l "priority_level", JStr priority_upper) ]);
      (s2l "metadata", JDict
         [ (s2l "classification_confidence", m_conf);
           (s2l "severity_score", m_score);
           (s2l "response_time", m_time);
           (s2l "is_fallback", JBool true);
           (s2l "error", JStr error_msg) ]) ]).

(** The [context] f-string of [generate_civic_report], evaluated before
    the [try]: only the [', '.join] of the visible items and the [.get]
    calls can raise. *)
Definition report_context (classification severity : json) : res unit :=
  _ <- py_get classification "waste_type" JNone ;;
  _ <- py_get classification "confidence" JNone ;;
  _ <- py_get classification "description" JNone ;;
  items <- py_get classification "visible_items" (JList []) ;;
  _ <- py_join (s2l ", ") items ;;
  _ <- py_get severity "severity" JNone ;;
  _ <- py_get severity "severity_score" JNone ;;
  _ <- py_get severity "response_time" JNone ;;
  _ <- py_get severity "health_risk" (JStr (s2l "Not assessed")) ;;
  _ <- py_get severity "environmental_impact" (JStr (s2l "Not assessed")) ;;
  Ok tt.

(** [generate_civic_report]: [call] is what [call_nemotron_llm] returns or
    raises. *)
Definition generate_civic_report (rt : runtime) (classification severity : json)
  (location additional_notes : pystr) (call : res json) (clk : clock) : res json :=
  _ <- report_context classification severity ;;
  try_except
    (response <- call ;;
     report_text_v <- extract_text_from_response rt response ;;
     report_text <- as_str report_text_v "startswith" ;;
     if startswith report_text ERROR_PREFIX then
       _create_fallback_report rt classification severity location report_text clk
     else
       let report_sections := _parse_report_sections report_text in
       wt <- py_get classification "waste_type" JNone ;;
       sv <- py_get severity "severity" JNone ;;
       m_conf <- py_get classification "confidence" JNone ;;
       m_score <- py_get severity "severity_score" JNone ;;
       m_time <- py_get severity "response_time" JNone ;;
       Ok (JDict
         [ (s2l "report_id", JStr (s2l "ECO-" ++ now_compact clk));
           (s2l "timestamp", JStr (now_timestamp clk));
           (s2l "location", JStr location);
           (s2l "waste_type", wt);
           (s2l "severity", sv);
           (s2l "full_report", JStr report_text);
           (s2l "sections", sections_json report_sections);
           (s2l "metadata", JDict
              [ (s2l "classification_confidence", m_conf);
                (s2l "severity_score", m_score);
                (s2l "response_time", m_time) ]) ]))
    (fun e => _create_fallback_report rt classification severity location
                (s2l "Exception during report generation: " ++ exn_msg e) clk).

(* ------------------------------------------------------------------ *)
(** ** eco_agent.py: [EcoAgent.analyze_image] *)

Record EcoAgent : Type := MkEcoAgent { verbose : bool }.

(** The outside world of one run: the outcome of [encode_image_to_base64]
    on the given image, and of the three model calls. *)
Record world : Type := World {
  encoded_image : res pystr;
  vlm_response : res json;
  severity_response : res json;
  report_response : res json;
  report_clock : clock }.

(** [results["steps"][k] = v] *)
Definition set_step (results : dict) (k : string) (v : json) : dict :=
  match dict_lookup (s2l "steps") results with
  | Some (JDict st) => dict_set (s2l "steps") (JDict (dict_set (s2l k) v st)) results
  | _ => results
  end.

(** The [except Exception as e] branch. *)
Definition error_results (results : dict) (e : exn) : json :=
  JDict (dict_set (s2l "error") (JStr (exn_msg e)) (dict_set (s2l "status") (JStr (s2l "error")) results)).

Definition analyze_image (rt : runtime) (self : EcoAgent) (w : world)
  (location additional_notes : pystr) (use_llm_severity : bool) : json :=
  let results0 := [ (s2l "status", JStr (s2l "in_progress")); (s2l "steps", JDict []) ] in
  match encoded_image w with
  | Raise e => error_results results0 e
  | Ok _image_base64 =>
    let results1 := set_step results0 "encoding" (JDict [(s2l "status", JStr (s2l "success"))]) in
    match classify_waste rt (vlm_response w) with
    | Raise e => error_results results1 e
    | Ok classification =>
      let results2 := set_step results1 "classification" classification in
      match estimate_severity rt classification location use_llm_severity (severity_response w) with
      | Raise e => error_results results2 e
      | Ok severity =>
        let results3 := set_step results2 "severity" severity in
        (* verbose: [severity.get('severity').upper()] *)
        match (if verbose self then (lvl <- py_get severity "severity" JNone ;; py_upper rt lvl)
               else Ok []) with
        | Raise e => error_results results3 e
        | Ok _ =>
          match generate_civic_report rt classification severity location additional_notes
                  (report_response w) (report_clock w) with
          | Raise e => error_results results3 e
          | Ok report =>
            let results4 := set_step results3 "report" report in
            match (rid <- py_get report "report_id" JNone ;;
                   wt <- py_get classification "waste_type" JNone ;;
                   sv <- py_get severity "severity" JNone ;;
                   Ok (JDict [ (s2l "report_id", rid); (s2l "waste_type", wt);
                               (s2l "severity", sv); (s2l "location", JStr location) ])) with
            | Raise e => error_results results4 e
            | Ok summary =>
              JDict (dict_set (s2l "summary") summary
                       (dict_set (s2l "status") (JStr (s2l "complete")) results4))
            end
          end
        end
      end
    end
  end.

(* ------------------------------------------------------------------ *)
(** ** Reading results *)

(** [v.get(k)] on a result dictionary. *)
Definition field (v : json) (k : string) : option json :=
  match v with JDict d => dict_lookup (s2l k) d | _ => None end.

Definition status_of (results : json) : option json := field results "status".

Definition step (results : json) (k : string) : option json :=
  match field results "steps" with Some st => field st k | None => None end.

(** [str.lower] and [str.upper] on ASCII letters, with [repr] quoting a
    text in single quotes: the runtime's behaviour on ASCII inputs without
    quotes, backslashes or control characters, used for concrete runs. *)
Definition ascii_runtime : runtime :=
  Runtime (map (fun c => if (65 <=? c) && (c <=? 90) then c + 32 else c))
          (map (fun c => if (97 <=? c) && (c <=? 122) then c - 32 else c))
          (fun s => [39] ++ s ++ [39]).

(** [results[k1][k2]] *)
Definition subfield (v : json) (k1 k2 : string) : option json :=
  match field v k1 with Some x => field x k2 | None => None end.

Definition is_dict (v : json) : bool := match v with JDict _ => true | _ => false end.

(* ------------------------------------------------------------------ *)
(** ** Collaborator outcomes *)

(** The dictionary an API helper returns when the request fails. *)
Definition error_response (message : pystr) : json :=
  JDict [ (s2l "error", JBool true); (s2l "message", JStr message) ].

(** A chat-completion response whose first choice carries [content]. *)
Definition chat_response (content : pystr) : json :=
  JDict [ (s2l "choices",
           JList [ JDict [ (s2l "message", JDict [ (s2l "content", JStr content) ]) ] ]) ].

(** A collaborator call yields the failure signal [t]: it returns a
    response whose extracted text [t] starts with the sentinel. *)
Definition failure_signal (rt : runtime) (call : res json) (t : pystr) : Prop :=
  exists response, call = Ok response /\
    extract_text_from_response rt response = Ok (JStr t) /\
    startswith t ERROR_PREFIX = true.


(* ------------------------------------------------------------------ *)
(** ** Concrete runs *)

Definition sample_clock : clock :=
  Clock (s2l "2025-01-15 10:30:00") (s2l "20250115103000").

Definition sample_image : pystr := s2l "iVBORw0KGgo=".

(** What the VLM reports for a photo of an oil spill. *)
Definition oil_spill_reply : json :=
  chat_response (json_dumps (JDict [ (s2l "waste_type", JStr (s2l "oil spill"));
                                     (s2l "confidence", JStr (s2l "high"));
                                     (s2l "description", JStr (s2l "Oil on the road"));
                                     (s2l "tags", JList [JStr (s2l "oil")]);
                                     (s2l "visible_items", JList [JStr (s2l "oil slick")]) ])).

(** A model reply that names a level and a score outside the table. *)
Definition out_of_table_reply : json :=
  chat_response (json_dumps (JDict [ (s2l "severity", JStr (s2l "critical"));
                                     (s2l "severity_score", JInt 9) ])).

Definition a_report_reply : json :=
  chat_response (s2l "Executive Summary: Oil on the road.").

(** The VLM request fails; the other calls answer. *)
Definition world_vlm_down : world :=
  World (Ok sample_image)
        (Ok (error_response (s2l "VLM API call failed: 503 Server Error")))
        (Ok out_of_table_reply)
        (Ok a_report_reply)
        sample_clock.


Definition agent : EcoAgent := MkEcoAgent false.

(** The value of a call that returned. *)
Definition ok_value (r : res json) : json := match r with Ok v => v | Raise _ => JNone end.


Definition oil_spill_classification : json :=
  JDict [ (s2l "waste_type", JStr (s2l "oil spill")); (s2l "confidence", JStr (s2l "high"));
          (s2l "description", JStr (s2l "Oil on the road")) ].

Definition hazardous_paper_classification : json :=
  JDict [ (s2l "waste_type", JStr (s2l "Hazardous paper waste")); (s2l "confidence", JStr (s2l "low"));
          (s2l "description", JStr (s2l "Soaked sheets")) ].

(** What [call_nemotron_llm] raises without an API key. *)
Definition api_key_missing : exn :=
  Exn (s2l "ValueError") (s2l "NVIDIA_API_KEY not found in environment variables").









(* ------------------------------------------------------------------ *)
(** ** The API helpers (helpers.py) *)

(** [get_nvidia_api_key]: [env] is [os.getenv("NVIDIA_API_KEY")]; an unset
    or empty variable raises. *)
Definition get_nvidia_api_key (env : option pystr) : res pystr :=
  match env with
  | Some k => if Nat.eqb (length k) 0 then Raise api_key_missing else Ok k
  | None => Raise api_key_missing
  end.

(** What [requests.post(...)], [raise_for_status()] and [response.json()]
    give: the decoded body, or a [RequestException] with [str(e)] and the
    status code of its response, if it has one. *)
Inductive http_outcome : Type :=
| HttpOk (body : json)
| HttpError (msg : pystr) (status_code : option Z).

(** The dictionary of the [except requests.exceptions.RequestException]
    branch; [api] is ["VLM"] or ["LLM"]. *)
Definition request_failed (api : string) (msg : pystr) (status_code : option Z) : json :=
  JDict [ (s2l "error", JBool true);
          (s2l "message", JStr (s2l api ++ s2l " API call failed: " ++ msg));
          (s2l "status_code", match status_code with Some c => JInt c | None => JNone end) ].

(** The [messages] of [call_nemotron_vlm]: one user message with the text
    prompt and the image as a data URL. *)
Definition vlm_messages (prompt image_base64 : pystr) : json :=
  JList [ JDict [ (s2l "role", JStr (s2l "user"));
                  (s2l "content", JList
                     [ JDict [ (s2l "type", JStr (s2l "text")); (s2l "text", JStr prompt) ];
                       JDict [ (s2l "type", JStr (s2l "image_url"));
                               (s2l "image_url", JDict [ (s2l "url",
                                  JStr (s2l "data:image/jpeg;base64," ++ image_base64)) ]) ] ]) ] ].

(** The [messages] of [call_nemotron_llm]: the system message when the
    system prompt is truthy, then the user message. *)
Definition llm_messages (prompt : pystr) (system_prompt : json) : json :=
  JList ((if truthy system_prompt
          then [ JDict [ (s2l "role", JStr (s2l "system")); (s2l "content", system_prompt) ] ]
          else []) ++
         [ JDict [ (s2l "role", JStr (s2l "user")); (s2l "content", JStr prompt) ] ]).

(** [post api_key payload]: the request, given the key of the
    Authorization header and the payload's model, messages and max_tokens
    (the float temperature is not modelled). *)
Definition poster : Type := pystr -> json -> http_outcome.

Definition payload (model : pystr) (messages : json) (max_tokens : Z) : json :=
  JDict [ (s2l "model", JStr model); (s2l "messages", messages); (s2l "max_tokens", JInt max_tokens) ].

Definition call_nemotron_vlm (env : option pystr) (post : poster)
  (image_base64 prompt model : pystr) (max_tokens : Z) : res json :=
  api_key <- get_nvidia_api_key env ;;
  match post api_key (payload model (vlm_messages prompt image_base64) max_tokens) with
  | HttpOk body => Ok body
  | HttpError msg code => Ok (request_failed "VLM" msg code)
  end.

Definition call_nemotron_llm (env : option pystr) (post : poster)
  (prompt model : pystr) (max_tokens : Z) (system_prompt : json) : res json :=
  api_key <- get_nvidia_api_key env ;;
  match post api_key (payload model (llm_messages prompt system_prompt) max_tokens) with
  | HttpOk body => Ok body
  | HttpError msg code => Ok (request_failed "LLM" msg code)
  end.

(* ------------------------------------------------------------------ *)
(** ** [format_report_for_display] (report_generator.py) *)

Definition box_rule : pystr := repeat 9472 61.                     (* U+2500 *)

Definition box_banner : pystr :=
  [9556] ++ repeat 9552 62 ++ [9559] ++ nl ++                       (* U+2554 U+2550 U+2557 *)
  [9553] ++ s2l "           ENVIRONMENTAL INCIDENT REPORT                       " ++ [9553] ++ nl ++
  [9562] ++ repeat 9552 62 ++ [9565].                               (* U+255A U+255D *)

(** One titled block of the display: rule, title, rule, body. *)
Definition display_block (title : string) (body : pystr) : pystr :=
  box_rule ++ nl ++ s2l title ++ nl ++ box_rule ++ nl ++ body ++ nl ++ nl.

Definition format_report_for_display (rt : runtime) (report : json) : res pystr :=
  sections <- py_get report "sections" (JDict []) ;;
  metadata <- py_get report "metadata" (JDict []) ;;
  report_id <- py_get report "report_id" (JStr (s2l "N/A")) ;;
  timestamp <- py_get report "timestamp" (JStr (s2l "N/A")) ;;
  location <- py_get report "location" (JStr (s2l "Not specified")) ;;
  summary <- py_get sections "executive_summary" (JStr (s2l "Not available")) ;;
  findings <- py_get sections "detailed_findings" (JStr (s2l "Not available")) ;;
  risk <- py_get sections "risk_assessment" (JStr (s2l "Not available")) ;;
  actions <- py_get sections "recommended_actions" (JStr (s2l "Not available")) ;;
  priority <- py_get sections "priority_level" (JStr (s2l "MEDIUM")) ;;
  confidence <- py_get metadata "classification_confidence" (JStr (s2l "N/A")) ;;
  score <- py_get metadata "severity_score" (JStr (s2l "N/A")) ;;
  response_time <- py_get metadata "response_time" (JStr (s2l "N/A")) ;;
  Ok (nl ++ box_banner ++ nl ++ nl ++
      s2l "Report ID: " ++ py_str rt report_id ++ nl ++
      s2l "Timestamp: " ++ py_str rt timestamp ++ nl ++
      s2l "Location: " ++ py_str rt location ++ nl ++ nl ++
      display_block "EXECUTIVE SUMMARY" (py_str rt summary) ++
      display_block "DETAILED FINDINGS" (py_str rt findings) ++
      display_block "RISK ASSESSMENT" (py_str rt risk) ++
      display_block "RECOMMENDED ACTIONS" (py_str rt actions) ++
      box_rule ++ nl ++
      s2l "PRIORITY LEVEL: " ++ py_str rt priority ++ nl ++
      box_rule ++ nl ++ nl ++
      s2l "Metadata:" ++ nl ++
      s2l "- Classification Confidence: " ++ py_str rt confidence ++ nl ++
      s2l "- Severity Score: " ++ py_str rt score ++ s2l "/5" ++ nl ++
      s2l "- Expected Response Time: " ++ py_str rt response_time ++ nl).

(** [EcoAgent.get_formatted_report]: [None] is the Python [None]. *)
Definition get_formatted_report (rt : runtime) (self : EcoAgent) (results : json) : res (option pystr) :=
  status <- py_get results "status" JNone ;;
  if match status with JStr s => negb (str_eqb s (s2l "complete")) | _ => true end
  then Ok None
  else
    steps <- py_getitem results "steps" ;;
    report <- py_get steps "report" JNone ;;
    if negb (truthy report) then Ok None
    else formatted <- format_report_for_display rt report ;; Ok (Some formatted).

(* ------------------------------------------------------------------ *)
(** ** More concrete runs, and the shape of a run's results *)






(** Every call answers. *)
Definition world_ok : world :=
  World (Ok sample_image) (Ok oil_spill_reply) (Ok out_of_table_reply) (Ok a_report_reply) sample_clock.

Definition encode_failed : exn :=
  Exn (s2l "ValueError") (s2l "Failed to encode image: cannot identify image file").


(** The initial [results] of [analyze_image], and the results after the
    four steps. *)
Definition results0 : dict := [ (s2l "status", JStr (s2l "in_progress")); (s2l "steps", JDict []) ].

Definition run_results (cls sev rep : json) : dict :=
  set_step (set_step (set_step (set_step results0 "encoding" (JDict [(s2l "status", JStr (s2l "success"))]))
     "classification" cls) "severity" sev) "report" rep.

(** The results of a complete run. *)
Definition complete_results (summary : json) (cls sev rep : json) : json :=
  JDict (dict_set (s2l "summary") summary
           (dict_set (s2l "status") (JStr (s2l "complete")) (run_results cls sev rep))).

(* ------------------------------------------------------------------ *)
(** * Proofs *)

Lemma str_eqb_true a b : str_eqb a b = true <-> a = b.
Proof. unfold str_eqb; destruct (list_eq_dec Z.eq_dec a b); split; congruence. Qed.

Lemma str_eqb_refl a : str_eqb a a = true.
Proof. apply str_eqb_true; reflexivity. Qed.

Lemma str_eqb_false a b : a <> b -> str_eqb a b = false.
Proof. intros H; destruct (str_eqb a b) eqn:E; [apply str_eqb_true in E; congruence | reflexivity]. Qed.

Lemma bind_ok {A B} (c : res A) (k : A -> res B) r :
  bind c k = Ok r -> exists a, c = Ok a /\ k a = Ok r.
Proof. destruct c; simpl; [eauto | discriminate]. Qed.

Lemma dict_lookup_set_same k v d : dict_lookup k (dict_set k v d) = Some v.
Proof.
  induction d as [|[k' v'] d IH]; simpl.
  - rewrite str_eqb_refl; reflexivity.
  - destruct (str_eqb k k') eqn:E; simpl; rewrite ?E, ?str_eqb_refl; auto.
Qed.

Lemma dict_lookup_set_other k k2 v d : k2 <> k ->
  dict_lookup k2 (dict_set k v d) = dict_lookup k2 d.
Proof.
  intros Hne; induction d as [|[k' v'] d IH]; simpl.
  - rewrite str_eqb_false by assumption; reflexivity.
  - destruct (str_eqb k k') eqn:E; simpl.
    + apply str_eqb_true in E; subst k'. rewrite str_eqb_false by assumption; reflexivity.
    + rewrite IH; reflexivity.
Qed.

Lemma severity_level_in_table s : exists i, levels_lookup (severity_level_of s) SEVERITY_LEVELS = Some i.
Proof.
  unfold severity_level_of.
  destruct (5 <=? s); [eexists; reflexivity|].
  destruct (4 <=? s); [eexists; reflexivity|].
  destruct (s =? 2); [eexists; reflexivity|].
  destruct (s =? 1); eexists; reflexivity.
Qed.

Lemma keyword_score_range w d : 2 <= keyword_score w d <= 5.
Proof.
  unfold keyword_score;
  repeat match goal with |- context [if ?b then _ else _] => destruct b end; lia.
Qed.

Lemma confidence_adjust_range c s : 2 <= s <= 5 -> 2 <= confidence_adjust c s <= 5.
Proof. unfold confidence_adjust; destruct (str_eqb c (s2l "low")); lia. Qed.

(** The output of the rule engine, read back. *)
Lemma rule_based_inv rt cls r :
  estimate_severity_rule_based rt cls = Ok r ->
  exists wt cf ds d,
    cls = JDict d /\
    py_get cls "waste_type" (JStr []) = Ok (JStr wt) /\
    py_get cls "confidence" (JStr (s2l "low")) = Ok (JStr cf) /\
    py_get cls "description" (JStr []) = Ok (JStr ds) /\
    let s := confidence_adjust (str_lower rt cf) (keyword_score (str_lower rt wt) (str_lower rt ds)) in
    exists i, levels_lookup (severity_level_of s) SEVERITY_LEVELS = Some i /\
    r = JDict [ (s2l "severity", JStr (severity_level_of s));
                (s2l "severity_score", JInt s);
                (s2l "description", JStr (li_description i));
                (s2l "response_time", JStr (li_response_time i));
                (s2l "method", JStr (s2l "rule-based")) ].
Proof.
  unfold estimate_severity_rule_based; intros H.
  apply bind_ok in H as [wt [Hwt H]].
  apply bind_ok in H as [w [Hw H]].
  apply bind_ok in H as [cf [Hcf H]].
  apply bind_ok in H as [c [Hc H]].
  apply bind_ok in H as [ds [Hds H]].
  apply bind_ok in H as [de [Hde H]].
  apply bind_ok in H as [tg [Htg H]].
  apply bind_ok in H as [ti [Hti H]].
  apply bind_ok in H as [tl [Htl H]].
  destruct cls as [| | | | |d]; try discriminate Hwt.
  destruct wt; try discriminate Hw. destruct cf; try discriminate Hc. destruct ds; try discriminate Hde.
  simpl in Hw, Hc, Hde. injection Hw as <-. injection Hc as <-. injection Hde as <-.
  do 4 eexists; split; [reflexivity|]. split; [exact Hwt|]. split; [exact Hcf|]. split; [exact Hds|].
  cbv zeta.
  destruct (levels_lookup _ SEVERITY_LEVELS) as [i|]; [|discriminate].
  injection H as <-. eexists; split; reflexivity.
Qed.

Ltac inv_binds H :=
  repeat match type of H with
  | bind _ _ = Ok _ =>
      let a := fresh "a" in let E := fresh "E" in apply bind_ok in H; destruct H as [a [E H]]
  end.

Lemma rule_based_score_level rt cls r :
  estimate_severity_rule_based rt cls = Ok r ->
  exists s, field r "severity_score" = Some (JInt s) /\ 2 <= s <= 5 /\
    field r "severity" = Some (JStr (severity_level_of s)) /\
    severity_level_of s <> s2l "minimal".
Proof.
  intros H; apply rule_based_inv in H as (wt & cf & ds & d & -> & _ & _ & _ & i & _ & ->).
  set (s := confidence_adjust _ _).
  assert (Hs : 2 <= s <= 5) by (apply confidence_adjust_range, keyword_score_range).
  exists s; split; [reflexivity|]; split; [exact Hs|]; split; [reflexivity|].
  unfold severity_level_of.
  destruct (5 <=? s); [discriminate|]. destruct (4 <=? s); [discriminate|].
  destruct (s =? 2) eqn:E2; [discriminate|]. destruct (s =? 1) eqn:E1; [lia|discriminate].
Qed.

(** Claim C10. For every classification, the rule-based engine's score is
    in 2..5, its level is the table's level for that score, and that level
    is never minimal. *)
Theorem rule_based_score_range rt cls r :
  estimate_severity_rule_based rt cls = Ok r ->
  exists s, field r "severity_score" = Some (JInt s) /\ 2 <= s <= 5 /\
    field r "severity" = Some (JStr (severity_level_of s)) /\
    severity_level_of s <> s2l "minimal".
Proof.
  intros H; apply rule_based_inv in H as (wt & cf & ds & d & -> & _ & _ & _ & i & _ & ->).
  set (s := confidence_adjust _ _).
  assert (Hs : 2 <= s <= 5) by (apply confidence_adjust_range, keyword_score_range).
  exists s; split; [reflexivity|]; split; [exact Hs|]; split; [reflexivity|].
  unfold severity_level_of.
  destruct (5 <=? s); [discriminate|]. destruct (4 <=? s); [discriminate|].
  destruct (s =? 2) eqn:E2; [discriminate|]. destruct (s =? 1) eqn:E1; [lia|discriminate].
Qed.

(** Claim C6. When the confidence read from the classification is low
    (after lower-casing), the rule-based score is the keyword score minus 1,
    floored at 2; so it is at least 2. *)
Theorem rule_based_low_confidence rt cls r cf :
  estimate_severity_rule_based rt cls = Ok r ->
  py_get cls "confidence" (JStr (s2l "low")) = Ok (JStr cf) ->
  str_lower rt cf = s2l "low" ->
  exists wt ds s,
    py_get cls "waste_type" (JStr []) = Ok (JStr wt) /\
    py_get cls "description" (JStr []) = Ok (JStr ds) /\
    s = Z.max 2 (keyword_score (str_lower rt wt) (str_lower rt ds) - 1) /\
    field r "severity_score" = Some (JInt s) /\ 2 <= s.
Proof.
  intros H Hcf Hlow.
  apply rule_based_inv in H as (wt & cf' & ds & d & -> & Hwt & Hcf' & Hds & i & _ & ->).
  rewrite Hcf in Hcf'; injection Hcf' as <-.
  exists wt, ds; eexists; split; [exact Hwt|]; split; [exact Hds|]; split; [reflexivity|].
  unfold confidence_adjust; rewrite Hlow; simpl.
  split; [reflexivity | lia].
Qed.

(** Claim C5 (corrected). When the lower-cased waste type holds both a
    critical and a low keyword, the keyword score is 5 whatever the
    description, and the final score is 5, or 4 when the confidence is low. *)
Theorem rule_based_critical_wins rt cls r wt :
  estimate_severity_rule_based rt cls = Ok r ->
  py_get cls "waste_type" (JStr []) = Ok (JStr wt) ->
  any_in critical_keywords (str_lower rt wt) = true ->
  any_in low_keywords (str_lower rt wt) = true ->
  (forall d, keyword_score (str_lower rt wt) d = 5) /\
  exists cf, py_get cls "confidence" (JStr (s2l "low")) = Ok (JStr cf) /\
    field r "severity_score" = Some (JInt (if str_eqb (str_lower rt cf) (s2l "low") then 4 else 5)).
Proof.
  intros H Hwt Hcrit _.
  assert (K : forall d, keyword_score (str_lower rt wt) d = 5)
    by (intros d; unfold keyword_score; rewrite Hcrit; reflexivity).
  split; [exact K|].
  apply rule_based_inv in H as (wt' & cf & ds & d & -> & Hwt' & Hcf & Hds & i & _ & ->).
  rewrite Hwt in Hwt'; injection Hwt' as <-.
  exists cf; split; [exact Hcf|].
  rewrite K; unfold confidence_adjust.
  destruct (str_eqb (str_lower rt cf) (s2l "low")); reflexivity.
Qed.

Lemma with_llm_inv rt cls loc call r :
  estimate_severity_with_llm rt cls loc call = Ok r ->
  field r "method" = Some (JStr (s2l "llm-based")) \/
  exists r0, estimate_severity_rule_based rt cls = Ok r0 /\
    (r = r0 \/ exists m, r = json_set r0 "llm_error" m).
Proof.
  unfold estimate_severity_with_llm, try_except; intros H.
  match type of H with
  | match ?b with Ok _ => _ | Raise _ => _ end = _ => destruct b as [a|e] eqn:Eb
  end.
  - injection H as ->. inv_binds Eb.
    destruct (startswith a4 ERROR_PREFIX).
    + right; eauto.
    + inv_binds Eb. destruct a5.
      * inv_binds Eb. injection Eb as <-. left; reflexivity.
      * right; eauto.
  - inv_binds H. injection H as <-. right; eauto.
Qed.

(** Claim C4 (corrected). Every assessment of [estimate_severity] whose
    method is rule-based has a score in 1..5 and the level the table gives
    for that score. *)
Theorem rule_based_assessment_consistent rt cls loc use_llm call r :
  estimate_severity rt cls loc use_llm call = Ok r ->
  field r "method" = Some (JStr (s2l "rule-based")) ->
  exists s, field r "severity_score" = Some (JInt s) /\ 1 <= s <= 5 /\
    field r "severity" = Some (JStr (severity_level_of s)).
Proof.
  intros H Hm.
  assert (R : exists r0, estimate_severity_rule_based rt cls = Ok r0 /\
                (r = r0 \/ exists m, r = json_set r0 "llm_error" m)).
  { unfold estimate_severity in H; destruct use_llm.
    - apply with_llm_inv in H as [Hl | R]; [rewrite Hl in Hm; discriminate Hm | exact R].
    - eauto. }
  destruct R as [r0 [H0 Hr]].
  apply rule_based_score_level in H0 as (s & Hsc & Hs & Hlv & _).
  exists s.
  destruct Hr as [-> | [m ->]].
  - repeat split; auto; lia.
  - destruct r0 as [| | | | |d0]; try discriminate Hsc.
    unfold json_set, field in *.
    rewrite !dict_lookup_set_other by discriminate.
    repeat split; auto; lia.
Qed.


Lemma classify_on_signal rt call t :
  failure_signal rt call t -> classify_waste rt call = Ok (_create_fallback_classification t).
Proof.
  intros (resp & -> & Ht & Hs). unfold classify_waste; simpl. rewrite Ht; simpl. rewrite Hs. reflexivity.
Qed.

Lemma severity_llm_on_signal rt cls loc call t :
  failure_signal rt call t ->
  estimate_severity_with_llm rt cls loc call = estimate_severity_rule_based rt cls.
Proof.
  intros (resp & -> & Ht & Hs). unfold estimate_severity_with_llm.
  destruct cls as [| | | | |d]; try reflexivity.
  cbn [bind py_get]. rewrite Ht. cbn [bind as_str]. rewrite Hs.
  unfold try_except.
  destruct (estimate_severity_rule_based rt (JDict d)); reflexivity.
Qed.

Lemma fallback_report_raise_indep rt cls sev loc m1 m2 clk e :
  _create_fallback_report rt cls sev loc m1 clk = Raise e ->
  _create_fallback_report rt cls sev loc m2 clk = Raise e.
Proof.
  unfold _create_fallback_report, bind.
  repeat match goal with
  | |- match ?c with Ok _ => _ | Raise _ => _ end = _ -> _ => destruct c
  end; congruence.
Qed.

Lemma report_on_signal rt cls sev loc notes call clk t :
  failure_signal rt call t ->
  generate_civic_report rt cls sev loc notes call clk =
    (_ <- report_context cls sev ;; _create_fallback_report rt cls sev loc t clk).
Proof.
  intros (resp & -> & Ht & Hs). unfold generate_civic_report.
  destruct (report_context cls sev); simpl; [|reflexivity].
  rewrite Ht; simpl; rewrite Hs.
  destruct (_create_fallback_report rt cls sev loc t clk) eqn:E; simpl; [reflexivity|].
  apply fallback_report_raise_indep with (m1 := t); exact E.
Qed.




Lemma analyze_image_complete rt self w loc notes use_llm b dc sev lv dr :
  encoded_image w = Ok b ->
  classify_waste rt (vlm_response w) = Ok (JDict dc) ->
  estimate_severity rt (JDict dc) loc use_llm (severity_response w) = Ok sev ->
  field sev "severity" = Some (JStr lv) ->
  generate_civic_report rt (JDict dc) sev loc notes (report_response w) (report_clock w) = Ok (JDict dr) ->
  let out := analyze_image rt self w loc notes use_llm in
  status_of out = Some (JStr (s2l "complete")) /\
  step out "classification" = Some (JDict dc) /\
  step out "severity" = Some sev /\
  step out "report" = Some (JDict dr).
Proof.
  intros Hb Hc Hs Hlv Hr. destruct sev as [| | | | |ds]; try discriminate Hlv.
  unfold analyze_image. rewrite Hb, Hc, Hs.
  assert (V : (if verbose self then (lvl <- py_get (JDict ds) "severity" JNone ;; py_upper rt lvl)
               else Ok []) = Ok (if verbose self then str_upper rt lv else [])).
  { destruct (verbose self); [|reflexivity]. simpl in Hlv |- *. rewrite Hlv. reflexivity. }
  rewrite V, Hr. cbv zeta. repeat split; reflexivity.
Qed.

Lemma rule_based_on_fallback rt t :
  exists ds lv, estimate_severity_rule_based rt (_create_fallback_classification t) = Ok (JDict ds) /\
    field (JDict ds) "severity" = Some (JStr lv).
Proof.
  destruct (severity_level_in_table
              (confidence_adjust (str_lower rt (s2l "low"))
                 (keyword_score (str_lower rt (s2l "Unknown - Classification Failed"))
                    (str_lower rt (s2l "Unable to classify waste due to an error. Please try again or provide a clearer image.")))))
    as [i Hi].
  unfold estimate_severity_rule_based. vm_compute. vm_compute in Hi. rewrite Hi.
  do 2 eexists; split; reflexivity.
Qed.

Lemma fallback_report_fields rt dc ds lv loc msg clk :
  field (JDict ds) "severity" = Some (JStr lv) ->
  exists dr, _create_fallback_report rt (JDict dc) (JDict ds) loc msg clk = Ok (JDict dr) /\
    subfield (JDict dr) "metadata" "is_fallback" = Some (JBool true) /\
    subfield (JDict dr) "sections" "priority_level" = Some (JStr (str_upper rt lv)).
Proof.
  intros Hlv. simpl in Hlv. unfold _create_fallback_report; simpl. rewrite Hlv; simpl.
  eexists; split; [reflexivity|]. split; reflexivity.
Qed.

Lemma report_ok_on_fallback_class rt t ds lv loc notes call clk :
  field (JDict ds) "severity" = Some (JStr lv) ->
  exists dr, generate_civic_report rt (_create_fallback_classification t) (JDict ds) loc notes call clk = Ok (JDict dr).
Proof.
  intros Hlv.
  assert (C : report_context (_create_fallback_classification t) (JDict ds) = Ok tt) by reflexivity.
  unfold generate_civic_report; rewrite C; cbn [bind].
  destruct (fallback_report_fields rt
              (match _create_fallback_classification t with JDict d => d | _ => [] end) ds lv loc
              (s2l "Exception during report generation: ") clk Hlv) as [dr0 [E0 _]].
  unfold try_except.
  match goal with |- exists _, match ?c with Ok _ => _ | Raise _ => _ end = _ => destruct c as [a|e] eqn:Eb end.
  - unfold bind in Eb.
    repeat match type of Eb with
    | match ?c with Ok _ => _ | Raise _ => _ end = _ => destruct c; try discriminate Eb
    | (if ?b then _ else _) = _ => destruct b
    end.
    + unfold _create_fallback_report in Eb. simpl in Eb. simpl in Hlv. rewrite Hlv in Eb. simpl in Eb.
      injection Eb as <-. eauto.
    + injection Eb as <-. eauto.
  - destruct (fallback_report_fields rt
              (match _create_fallback_classification t with JDict d => d | _ => [] end) ds lv loc
              (s2l "Exception during report generation: " ++ exn_msg e) clk Hlv) as [dr [E1 _]].
    exists dr; exact E1.
Qed.

Lemma analyze_image_severity_recorded rt self w loc notes use_llm b dc sev :
  encoded_image w = Ok b ->
  classify_waste rt (vlm_response w) = Ok (JDict dc) ->
  estimate_severity rt (JDict dc) loc use_llm (severity_response w) = Ok sev ->
  step (analyze_image rt self w loc notes use_llm) "classification" = Some (JDict dc) /\
  step (analyze_image rt self w loc notes use_llm) "severity" = Some sev.
Proof.
  intros Hb Hc Hs. unfold analyze_image. rewrite Hb, Hc, Hs.
  repeat match goal with
  | |- context [match ?c with Ok _ => _ | Raise _ => _ end] => destruct c
  end; split; reflexivity.
Qed.

Lemma with_llm_ok_of_rule rt cls loc call r :
  estimate_severity_rule_based rt cls = Ok r ->
  exists r', estimate_severity_with_llm rt cls loc call = Ok r'.
Proof.
  intros Hr. unfold estimate_severity_with_llm, try_except.
  match goal with |- exists _, match ?c with Ok _ => _ | Raise _ => _ end = _ => destruct c end.
  - eauto.
  - rewrite Hr; simpl; eauto.
Qed.

(** Claim C1 (corrected). When the image is encoded and the classification
    call returns the failure signal, the run goes on: the classification
    step holds the fallback classification built from the error text, a
    severity step is recorded, and on the rule-based severity path the
    status is complete and a report step is recorded. *)
Theorem classification_failure_run_continues rt self w loc notes use_llm t b :
  encoded_image w = Ok b ->
  failure_signal rt (vlm_response w) t ->
  let out := analyze_image rt self w loc notes use_llm in
  step out "classification" = Some (_create_fallback_classification t) /\
  (exists sv, step out "severity" = Some sv) /\
  (use_llm = false ->
   status_of out = Some (JStr (s2l "complete")) /\ exists rp, step out "report" = Some rp).
Proof.
  intros Hb Hf. cbv zeta.
  pose proof (classify_on_signal rt _ t Hf) as Hc.
  destruct (rule_based_on_fallback rt t) as (ds & lv & Hr & Hlv).
  assert (Hs : exists sev, estimate_severity rt (_create_fallback_classification t) loc use_llm
                             (severity_response w) = Ok sev).
  { unfold estimate_severity; destruct use_llm; [eapply with_llm_ok_of_rule; exact Hr | eauto]. }
  destruct Hs as [sev Hs].
  destruct (analyze_image_severity_recorded rt self w loc notes use_llm b _ sev Hb Hc Hs) as [H1 H2].
  split; [exact H1|]. split; [eauto|].
  intros ->. unfold estimate_severity in Hs; rewrite Hr in Hs; injection Hs as <-.
  destruct (report_ok_on_fallback_class rt t ds lv loc notes (report_response w) (report_clock w) Hlv)
    as [dr Hrep].
  destruct (analyze_image_complete rt self w loc notes false b _ (JDict ds) lv dr Hb Hc)
    as (Hst & _ & _ & Hrp); [unfold estimate_severity; exact Hr | exact Hlv | exact Hrep |].
  split; [exact Hst | eauto].
Qed.


(** Claim C1, counterexample: the VLM call fails, and the run still
    completes with a severity step and a report step. *)
Lemma vlm_failure_run_completes :
  failure_signal ascii_runtime (vlm_response world_vlm_down)
                 (s2l "ERROR: VLM API call failed: 503 Server Error") /\
  status_of (analyze_image ascii_runtime agent world_vlm_down [] [] false) = Some (JStr (s2l "complete")) /\
  step (analyze_image ascii_runtime agent world_vlm_down [] [] false) "severity" <> None /\
  step (analyze_image ascii_runtime agent world_vlm_down [] [] false) "report" <> None.
Proof.
  split; [eexists; split; [reflexivity | split; reflexivity]|].
  vm_compute. repeat split; discriminate.
Qed.

Lemma classification_failure_run_continues_witness :
  encoded_image world_vlm_down = Ok sample_image /\
  failure_signal ascii_runtime (vlm_response world_vlm_down)
                 (s2l "ERROR: VLM API call failed: 503 Server Error") /\
  let out := analyze_image ascii_runtime agent world_vlm_down [] [] false in
  step out "classification" = Some (_create_fallback_classification (s2l "ERROR: VLM API call failed: 503 Server Error")) /\
  (exists sv, step out "severity" = Some sv) /\
  (false = false -> status_of out = Some (JStr (s2l "complete")) /\ exists rp, step out "report" = Some rp).
Proof.
  assert (Hf : failure_signal ascii_runtime (vlm_response world_vlm_down)
                 (s2l "ERROR: VLM API call failed: 503 Server Error"))
    by (eexists; split; [reflexivity | split; reflexivity]).
  split; [reflexivity|]. split; [exact Hf|].
  exact (classification_failure_run_continues ascii_runtime agent world_vlm_down [] [] false _ sample_image eq_refl Hf).
Defined.





(** Claim C4, counterexample: the model path passes its reply through,
    score 9 with level critical. *)
Lemma model_level_out_of_table :
  field (ok_value (estimate_severity ascii_runtime oil_spill_classification [] true (Ok out_of_table_reply)))
        "severity_score" = Some (JInt 9) /\
  field (ok_value (estimate_severity ascii_runtime oil_spill_classification [] true (Ok out_of_table_reply)))
        "severity" = Some (JStr (s2l "critical")).
Proof. split; vm_compute; reflexivity. Qed.

Lemma rule_based_assessment_consistent_witness :
  estimate_severity ascii_runtime oil_spill_classification [] true (Raise api_key_missing)
    = Ok (ok_value (estimate_severity ascii_runtime oil_spill_classification [] true (Raise api_key_missing))) /\
  field (ok_value (estimate_severity ascii_runtime oil_spill_classification [] true (Raise api_key_missing)))
    "method" = Some (JStr (s2l "rule-based")) /\
  exists s, field (ok_value (estimate_severity ascii_runtime oil_spill_classification [] true (Raise api_key_missing)))
              "severity_score" = Some (JInt s) /\ 1 <= s <= 5 /\
    field (ok_value (estimate_severity ascii_runtime oil_spill_classification [] true (Raise api_key_missing)))
      "severity" = Some (JStr (severity_level_of s)).
Proof.
  assert (H1 : estimate_severity ascii_runtime oil_spill_classification [] true (Raise api_key_missing)
    = Ok (ok_value (estimate_severity ascii_runtime oil_spill_classification [] true (Raise api_key_missing))))
    by (vm_compute; reflexivity).
  assert (H2 : field (ok_value (estimate_severity ascii_runtime oil_spill_classification [] true (Raise api_key_missing)))
    "method" = Some (JStr (s2l "rule-based"))) by (vm_compute; reflexivity).
  split; [exact H1|]. split; [exact H2|].
  exact (rule_based_assessment_consistent _ _ _ _ _ _ H1 H2).
Defined.

(** Claim C5, counterexample: a waste type with a critical and a low
    keyword, at low confidence, gets score 4. *)
Lemma low_confidence_lowers_critical :
  any_in critical_keywords (s2l "hazardous paper waste") = true /\
  any_in low_keywords (s2l "hazardous paper waste") = true /\
  field (ok_value (estimate_severity_rule_based ascii_runtime hazardous_paper_classification))
        "severity_score" = Some (JInt 4).
Proof. repeat split; vm_compute; reflexivity. Qed.

Lemma rule_based_critical_wins_witness :
  estimate_severity_rule_based ascii_runtime hazardous_paper_classification
    = Ok (ok_value (estimate_severity_rule_based ascii_runtime hazardous_paper_classification)) /\
  (forall d, keyword_score (str_lower ascii_runtime (s2l "Hazardous paper waste")) d = 5) /\
  exists cf, py_get hazardous_paper_classification "confidence" (JStr (s2l "low")) = Ok (JStr cf) /\
    field (ok_value (estimate_severity_rule_based ascii_runtime hazardous_paper_classification))
      "severity_score" = Some (JInt (if str_eqb (str_lower ascii_runtime cf) (s2l "low") then 4 else 5)).
Proof.
  assert (Hr : estimate_severity_rule_based ascii_runtime hazardous_paper_classification
    = Ok (ok_value (estimate_severity_rule_based ascii_runtime hazardous_paper_classification)))
    by (vm_compute; reflexivity).
  split; [exact Hr|].
  apply (rule_based_critical_wins ascii_runtime hazardous_paper_classification _ (s2l "Hazardous paper waste") Hr);
    vm_compute; reflexivity.
Defined.

(** Witness of claim C6. *)
Lemma rule_based_low_confidence_witness :
  estimate_severity_rule_based ascii_runtime hazardous_paper_classification
    = Ok (ok_value (estimate_severity_rule_based ascii_runtime hazardous_paper_classification)) /\
  exists wt ds s,
    py_get hazardous_paper_classification "waste_type" (JStr []) = Ok (JStr wt) /\
    py_get hazardous_paper_classification "description" (JStr []) = Ok (JStr ds) /\
    s = Z.max 2 (keyword_score (str_lower ascii_runtime wt) (str_lower ascii_runtime ds) - 1) /\
    field (ok_value (estimate_severity_rule_based ascii_runtime hazardous_paper_classification))
      "severity_score" = Some (JInt s) /\ 2 <= s.
Proof.
  assert (Hr : estimate_severity_rule_based ascii_runtime hazardous_paper_classification
    = Ok (ok_value (estimate_severity_rule_based ascii_runtime hazardous_paper_classification)))
    by (vm_compute; reflexivity).
  split; [exact Hr|].
  apply (rule_based_low_confidence ascii_runtime hazardous_paper_classification _ (s2l "low") Hr);
    vm_compute; reflexivity.
Defined.




(** Witness of claim C10. *)
Lemma rule_based_score_range_witness :
  estimate_severity_rule_based ascii_runtime oil_spill_classification
    = Ok (ok_value (estimate_severity_rule_based ascii_runtime oil_spill_classification)) /\
  exists s, field (ok_value (estimate_severity_rule_based ascii_runtime oil_spill_classification))
              "severity_score" = Some (JInt s) /\ 2 <= s <= 5 /\
    field (ok_value (estimate_severity_rule_based ascii_runtime oil_spill_classification))
      "severity" = Some (JStr (severity_level_of s)) /\
    severity_level_of s <> s2l "minimal".
Proof.
  assert (Hr : estimate_severity_rule_based ascii_runtime oil_spill_classification
    = Ok (ok_value (estimate_severity_rule_based ascii_runtime oil_spill_classification)))
    by (vm_compute; reflexivity).
  split; [exact Hr | exact (rule_based_score_range _ _ _ Hr)].
Defined.

(* ------------------------------------------------------------------ *)
(** ** The [json.dumps] / [json.loads] round trip *)
































Lemma str_eqb_sym a b : str_eqb a b = str_eqb b a.
Proof.
  destruct (str_eqb a b) eqn:E; destruct (str_eqb b a) eqn:E'; auto.
  - apply str_eqb_true in E. subst. rewrite str_eqb_refl in E'. discriminate.
  - apply str_eqb_true in E'. subst. rewrite str_eqb_refl in E. discriminate.
Qed.













(* ------------------------------------------------------------------ *)
(** ** Further properties of the pipeline *)

(** Without an API key (the variable unset or empty), [call_nemotron_vlm]
    raises before any request, and [classify_waste] returns the fallback
    classification whose raw response names the missing key. *)
Lemma classify_waste_without_api_key rt env post img prompt model mt :
  env = None \/ env = Some [] ->
  classify_waste rt (call_nemotron_vlm env post img prompt model mt) =
    Ok (_create_fallback_classification
          (s2l "Exception during classification: NVIDIA_API_KEY not found in environment variables")).
Proof. intros [-> | ->]; reflexivity. Qed.

Lemma classify_waste_without_api_key_witness :
  (@None pystr = None \/ @None pystr = Some []) /\
  classify_waste ascii_runtime (call_nemotron_vlm None (fun _ _ => HttpOk JNone) sample_image (s2l "p") (s2l "m") 1024) =
    Ok (_create_fallback_classification
          (s2l "Exception during classification: NVIDIA_API_KEY not found in environment variables")).
Proof. split; [left; reflexivity | apply classify_waste_without_api_key; left; reflexivity]. Defined.

Lemma extract_text_request_failed rt api msg code :
  extract_text_from_response rt (request_failed api msg code) =
    Ok (JStr (s2l "ERROR: " ++ s2l api ++ s2l " API call failed: " ++ msg)).
Proof. reflexivity. Qed.

Lemma startswith_app p t : startswith (p ++ t) p = true.
Proof. induction p; simpl; [destruct t; reflexivity|]. rewrite Z.eqb_refl. simpl. exact IHp. Qed.

Lemma error_text_sentinel t : startswith (s2l "ERROR: " ++ t) ERROR_PREFIX = true.
Proof. change (s2l "ERROR: " ++ t) with (ERROR_PREFIX ++ (32 :: t)). apply startswith_app. Qed.

(** When the key is set and the VLM request fails with message [msg],
    [classify_waste] returns the fallback classification with raw response
    ["ERROR: VLM API call failed: " ++ msg]. *)
Lemma classify_waste_request_failure rt k post img prompt model mt msg code :
  k <> [] -> post k (payload model (vlm_messages prompt img) mt) = HttpError msg code ->
  classify_waste rt (call_nemotron_vlm (Some k) post img prompt model mt) =
    Ok (_create_fallback_classification (s2l "ERROR: VLM API call failed: " ++ msg)).
Proof.
  intros Hk Hp. unfold call_nemotron_vlm, get_nvidia_api_key.
  destruct k as [|c k]; [congruence|]. cbn [length Nat.eqb bind]. rewrite Hp.
  unfold classify_waste; cbn [bind try_except].
  rewrite extract_text_request_failed. cbn [bind as_str].
  rewrite error_text_sentinel. reflexivity.
Qed.

(** Without an API key, the model-based severity path returns the
    rule-based result with an [llm_error] naming the missing key, and report
    generation returns the fallback report with the exception text. *)
Theorem llm_calls_without_api_key rt cls sev loc notes env post prompt model mt sp r clk :
  env = None \/ env = Some [] ->
  estimate_severity_rule_based rt cls = Ok r ->
  estimate_severity_with_llm rt cls loc (call_nemotron_llm env post prompt model mt sp) =
    Ok (json_set r "llm_error" (JStr (s2l "NVIDIA_API_KEY not found in environment variables"))) /\
  generate_civic_report rt cls sev loc notes (call_nemotron_llm env post prompt model mt sp) clk =
    (_ <- report_context cls sev ;;
     _create_fallback_report rt cls sev loc
       (s2l "Exception during report generation: NVIDIA_API_KEY not found in environment variables") clk).
Proof.
  intros Henv Hr. assert (E : call_nemotron_llm env post prompt model mt sp = Raise api_key_missing)
    by (destruct Henv as [-> | ->]; reflexivity).
  rewrite E. split.
  - unfold estimate_severity_with_llm.
    destruct cls as [| | | | |d]; try discriminate Hr; cbn [bind py_get try_except]; rewrite Hr; reflexivity.
  - unfold generate_civic_report. destruct (report_context cls sev); reflexivity.
Qed.

Lemma llm_calls_without_api_key_witness :
  (@None pystr = None \/ @None pystr = Some []) /\
  estimate_severity_with_llm ascii_runtime oil_spill_classification []
    (call_nemotron_llm None (fun _ _ => HttpOk JNone) (s2l "p") (s2l "m") 2048 JNone) =
    Ok (json_set (ok_value (estimate_severity_rule_based ascii_runtime oil_spill_classification)) "llm_error"
          (JStr (s2l "NVIDIA_API_KEY not found in environment variables"))) /\
  generate_civic_report ascii_runtime oil_spill_classification (JDict [(s2l "severity", JStr (s2l "high"))]) [] []
    (call_nemotron_llm None (fun _ _ => HttpOk JNone) (s2l "p") (s2l "m") 2048 JNone) sample_clock =
    (_ <- report_context oil_spill_classification (JDict [(s2l "severity", JStr (s2l "high"))]) ;;
     _create_fallback_report ascii_runtime oil_spill_classification (JDict [(s2l "severity", JStr (s2l "high"))]) []
       (s2l "Exception during report generation: NVIDIA_API_KEY not found in environment variables") sample_clock).
Proof.
  split; [left; reflexivity|].
  apply llm_calls_without_api_key; [left; reflexivity | vm_compute; reflexivity].
Defined.

(** [extract_text_from_response] on a response without a truthy [error]: a
    missing [choices] key and an empty [choices] list give an error text; a
    [null] [choices] raises a [TypeError], which [classify_waste] turns into
    its fallback. *)
Lemma extract_text_malformed rt d :
  truthy (match dict_lookup (s2l "error") d with Some v => v | None => JNone end) = false ->
  (dict_lookup (s2l "choices") d = None ->
     extract_text_from_response rt (JDict d) =
       Ok (JStr (s2l "ERROR: Failed to parse response - 'choices'"))) /\
  (dict_lookup (s2l "choices") d = Some (JList []) ->
     extract_text_from_response rt (JDict d) =
       Ok (JStr (s2l "ERROR: Failed to parse response - list index out of range"))) /\
  (dict_lookup (s2l "choices") d = Some JNone ->
     extract_text_from_response rt (JDict d) =
       Raise (type_error (s2l "'NoneType' object is not subscriptable")) /\
     classify_waste rt (Ok (JDict d)) =
       Ok (_create_fallback_classification
             (s2l "Exception during classification: 'NoneType' object is not subscriptable"))).
Proof.
  intros He. unfold classify_waste, extract_text_from_response. cbn [py_get bind]. rewrite He.
  split; [|split]; intros Hc; cbn [py_getitem]; rewrite Hc; [reflexivity|reflexivity|].
  split; reflexivity.
Qed.

Lemma extract_text_malformed_witness :
  truthy (match dict_lookup (s2l "error") [(s2l "choices", JList [])] with Some v => v | None => JNone end) = false /\
  extract_text_from_response ascii_runtime (JDict [(s2l "choices", JList [])]) =
    Ok (JStr (s2l "ERROR: Failed to parse response - list index out of range")).
Proof.
  split; [reflexivity|].
  apply (extract_text_malformed ascii_runtime [(s2l "choices", JList [])]); reflexivity.
Defined.


Ltac split_res :=
  repeat match goal with
  | |- context [match ?c with Ok _ => _ | Raise _ => _ end] =>
      lazymatch c with
      | context [match _ with Ok _ => _ | Raise _ => _ end] => fail
      | context [if _ then _ else _] => fail
      | _ => destruct c; cbn beta iota
      end
  | |- context [if ?b then _ else _] => destruct b; cbn beta iota
  end.

(** [classify_waste] never raises: whatever the VLM call returns or raises,
    the result is a dictionary with the six keys [waste_type], [confidence],
    [description], [tags], [visible_items] and [raw_response]. *)
Theorem classify_waste_total rt call :
  exists d, classify_waste rt call = Ok (JDict d) /\
    forall k, In k (map s2l ["waste_type"; "confidence"; "description"; "tags"; "visible_items"; "raw_response"])%string ->
      dict_lookup k d <> None.
Proof.
  unfold classify_waste, try_except, bind, _create_fallback_classification. split_res;
  eexists; (split; [reflexivity|]); intros k Hk; simpl in Hk;
  repeat (destruct Hk as [<-|Hk]; [vm_compute; discriminate|]); contradiction.
Qed.




















Lemma format_ok_of_dicts rt d :
  is_dict (match dict_lookup (s2l "sections") d with Some v => v | None => JDict [] end) = true ->
  is_dict (match dict_lookup (s2l "metadata") d with Some v => v | None => JDict [] end) = true ->
  exists s, format_report_for_display rt (JDict d) = Ok s.
Proof.
  intros Hs Hm. unfold format_report_for_display. cbn [py_get bind].
  destruct (dict_lookup (s2l "sections") d) as [[| | | | |sd]|]; try discriminate Hs;
  destruct (dict_lookup (s2l "metadata") d) as [[| | | | |md]|]; try discriminate Hm;
  cbn [py_get bind]; eexists; reflexivity.
Qed.


Lemma generate_ok_shape rt cls sev loc notes call clk r :
  generate_civic_report rt cls sev loc notes call clk = Ok r ->
  exists dr secs meta, r = JDict dr /\
    dict_lookup (s2l "sections") dr = Some (JDict secs) /\
    dict_lookup (s2l "metadata") dr = Some (JDict meta).
Proof.
  unfold generate_civic_report, _create_fallback_report, try_except, bind. split_res;
  intros H; try discriminate H; injection H as <-;
  do 3 eexists; (split; [reflexivity|]); split; reflexivity.
Qed.

Lemma analyze_image_cases rt self w loc notes use_llm :
  (exists res e, analyze_image rt self w loc notes use_llm = error_results res e) \/
  (exists b cls sev rep rid wt sv,
     encoded_image w = Ok b /\ classify_waste rt (vlm_response w) = Ok cls /\
     estimate_severity rt cls loc use_llm (severity_response w) = Ok sev /\
     generate_civic_report rt cls sev loc notes (report_response w) (report_clock w) = Ok rep /\
     py_get rep "report_id" JNone = Ok rid /\ py_get cls "waste_type" JNone = Ok wt /\
     py_get sev "severity" JNone = Ok sv /\
     analyze_image rt self w loc notes use_llm =
       JDict (dict_set (s2l "summary")
                (JDict [ (s2l "report_id", rid); (s2l "waste_type", wt);
                         (s2l "severity", sv); (s2l "location", JStr loc) ])
                (dict_set (s2l "status") (JStr (s2l "complete")) (run_results cls sev rep)))).
Proof.
  unfold analyze_image.
  destruct (encoded_image w) as [b|e] eqn:Eb; [|left; eauto].
  destruct (classify_waste rt (vlm_response w)) as [cls|e] eqn:Ec; [|left; eauto].
  destruct (estimate_severity rt cls loc use_llm (severity_response w)) as [sev|e] eqn:Es; [|left; eauto].
  destruct (if verbose self then _ else _) as [u|e]; [|left; eauto].
  destruct (generate_civic_report rt cls sev loc notes (report_response w) (report_clock w)) as [rep|e] eqn:Eg;
    [|left; eauto].
  match goal with |- context [match ?c with Ok _ => _ | Raise _ => _ end] => destruct c as [summ|e] eqn:Em end;
    [|left; eauto].
  inv_binds Em. injection Em as <-.
  right. do 7 eexists. repeat (split; [first [eassumption | reflexivity]|]). reflexivity.
Qed.

Lemma run_results_steps cls sev rep :
  dict_lookup (s2l "steps") (run_results cls sev rep) =
    Some (JDict [ (s2l "encoding", JDict [(s2l "status", JStr (s2l "success"))]);
                  (s2l "classification", cls); (s2l "severity", sev); (s2l "report", rep) ]).
Proof. reflexivity. Qed.

Lemma run_results_error cls sev rep : dict_lookup (s2l "error") (run_results cls sev rep) = None.
Proof. reflexivity. Qed.

Lemma status_ne_error : s2l "status" <> s2l "error".
Proof. vm_compute; congruence. Qed.
Lemma status_ne_summary : s2l "status" <> s2l "summary".
Proof. vm_compute; congruence. Qed.
Lemma steps_ne_summary : s2l "steps" <> s2l "summary".
Proof. vm_compute; congruence. Qed.
Lemma steps_ne_status : s2l "steps" <> s2l "status".
Proof. vm_compute; congruence. Qed.
Lemma error_ne_summary : s2l "error" <> s2l "summary".
Proof. vm_compute; congruence. Qed.
Lemma error_ne_status : s2l "error" <> s2l "status".
Proof. vm_compute; congruence. Qed.

Lemma error_results_status res e :
  status_of (error_results res e) = Some (JStr (s2l "error")).
Proof.
  unfold status_of, field, error_results.
  rewrite dict_lookup_set_other by exact status_ne_error. apply dict_lookup_set_same.
Qed.

Lemma error_results_error res e :
  field (error_results res e) "error" = Some (JStr (exn_msg e)).
Proof. unfold field, error_results. apply dict_lookup_set_same. Qed.

Lemma complete_results_status s cls sev rep :
  status_of (complete_results s cls sev rep) = Some (JStr (s2l "complete")).
Proof.
  unfold status_of, field, complete_results.
  rewrite dict_lookup_set_other by exact status_ne_summary. apply dict_lookup_set_same.
Qed.

Lemma complete_results_steps s cls sev rep :
  field (complete_results s cls sev rep) "steps" = dict_lookup (s2l "steps") (run_results cls sev rep).
Proof.
  unfold field, complete_results.
  rewrite dict_lookup_set_other by exact steps_ne_summary.
  rewrite dict_lookup_set_other by exact steps_ne_status. reflexivity.
Qed.

(** The status of a run is [error], with an error message, or [complete],
    with a summary and no error; never [in_progress]. *)
Theorem analyze_image_status rt self w loc notes use_llm :
  let out := analyze_image rt self w loc notes use_llm in
  (status_of out = Some (JStr (s2l "error")) /\ exists m, field out "error" = Some (JStr m)) \/
  (status_of out = Some (JStr (s2l "complete")) /\ field out "error" = None /\
   exists s, field out "summary" = Some s).
Proof.
  destruct (analyze_image_cases rt self w loc notes use_llm)
    as [(res & e & ->) | (b & cls & sev & rep & rid & wt & sv & _ & _ & _ & _ & _ & _ & _ & ->)].
  - left. split; [apply error_results_status | eexists; apply error_results_error].
  - right. fold (complete_results (JDict [ (s2l "report_id", rid); (s2l "waste_type", wt);
                         (s2l "severity", sv); (s2l "location", JStr loc) ]) cls sev rep).
    split; [apply complete_results_status|]. split.
    + unfold field, complete_results.
      rewrite dict_lookup_set_other by exact error_ne_summary.
      rewrite dict_lookup_set_other by exact error_ne_status. apply run_results_error.
    + eexists; unfold field, complete_results; apply dict_lookup_set_same.
Qed.

Lemma py_get_none v k x : py_get v k JNone = Ok x -> x = match field v k with Some y => y | None => JNone end.
Proof. destruct v; try discriminate. simpl. intros H; injection H as <-. reflexivity. Qed.

(** In a complete run the summary holds the report's id, the
    classification's waste type, the severity's level (each [None] if absent)
    and the location. *)
Theorem analyze_image_summary rt self w loc notes use_llm :
  let out := analyze_image rt self w loc notes use_llm in
  status_of out = Some (JStr (s2l "complete")) ->
  exists cls sev rep,
    step out "classification" = Some cls /\ step out "severity" = Some sev /\ step out "report" = Some rep /\
    field out "summary" = Some (JDict
      [ (s2l "report_id", match field rep "report_id" with Some v => v | None => JNone end);
        (s2l "waste_type", match field cls "waste_type" with Some v => v | None => JNone end);
        (s2l "severity", match field sev "severity" with Some v => v | None => JNone end);
        (s2l "location", JStr loc) ]).
Proof.
  intros out Hst. subst out.
  destruct (analyze_image_cases rt self w loc notes use_llm)
    as [(res & e & E) | (b & cls & sev & rep & rid & wt & sv & _ & _ & _ & _ & Hr & Hw & Hs & E)].
  - rewrite E, error_results_status in Hst. discriminate.
  - rewrite E. apply py_get_none in Hr, Hw, Hs. subst rid wt sv.
    fold (complete_results (JDict
      [ (s2l "report_id", match field rep "report_id" with Some v => v | None => JNone end);
        (s2l "waste_type", match field cls "waste_type" with Some v => v | None => JNone end);
        (s2l "severity", match field sev "severity" with Some v => v | None => JNone end);
        (s2l "location", JStr loc) ]) cls sev rep).
    exists cls, sev, rep. unfold step. rewrite complete_results_steps, run_results_steps.
    repeat split; try reflexivity.
Qed.

(** [get_formatted_report] never raises on a result of [analyze_image], and
    it returns a text exactly when the run's status is complete. *)
Theorem formatted_report_of_run rt self w loc notes use_llm :
  let out := analyze_image rt self w loc notes use_llm in
  exists o, get_formatted_report rt self out = Ok o /\
    (o <> None <-> status_of out = Some (JStr (s2l "complete"))).
Proof.
  destruct (analyze_image_cases rt self w loc notes use_llm)
    as [(res & e & ->) | (b & cls & sev & rep & rid & wt & sv & _ & _ & _ & Hg & _ & _ & _ & ->)].
  - exists None. pose proof (error_results_status res e) as S.
    unfold status_of, field in S. destruct (error_results res e) as [| | | | |d] eqn:Ed; try discriminate S.
    unfold get_formatted_report. cbn [py_get bind]. rewrite S. split; [reflexivity|].
    rewrite <- Ed, error_results_status. split; [congruence | discriminate].
  - fold (complete_results (JDict [ (s2l "report_id", rid); (s2l "waste_type", wt);
                         (s2l "severity", sv); (s2l "location", JStr loc) ]) cls sev rep).
    destruct (generate_ok_shape _ _ _ _ _ _ _ _ Hg) as (dr & secs & meta & -> & Hs & Hm).
    destruct (format_ok_of_dicts rt dr) as [txt Ht]; [rewrite Hs; reflexivity | rewrite Hm; reflexivity |].
    exists (Some txt). split.
    + pose proof (complete_results_status (JDict [ (s2l "report_id", rid); (s2l "waste_type", wt);
                         (s2l "severity", sv); (s2l "location", JStr loc) ]) cls sev (JDict dr)) as S.
      pose proof (complete_results_steps (JDict [ (s2l "report_id", rid); (s2l "waste_type", wt);
                         (s2l "severity", sv); (s2l "location", JStr loc) ]) cls sev (JDict dr)) as St.
      rewrite run_results_steps in St.
      unfold status_of, field in S, St.
      destruct (complete_results _ cls sev (JDict dr)) as [| | | | |d]; try discriminate S.
      unfold get_formatted_report. cbn [py_get py_getitem bind]. rewrite S. cbn [negb].
      rewrite str_eqb_refl. cbn [negb]. rewrite St. cbn [bind py_get].
      replace (dict_lookup (s2l "report") _) with (Some (JDict dr)) by reflexivity.
      destruct dr as [|kv dr]; [discriminate Hs|]. cbn [truthy length Nat.eqb negb].
      rewrite Ht. reflexivity.
    + rewrite complete_results_status. split; [reflexivity | discriminate].
Qed.

Lemma analyze_image_summary_witness :
  let out := analyze_image ascii_runtime agent world_ok (s2l "Main St") [] true in
  status_of out = Some (JStr (s2l "complete")) /\
  exists cls sev rep,
    step out "classification" = Some cls /\ step out "severity" = Some sev /\ step out "report" = Some rep /\
    field out "summary" = Some (JDict
      [ (s2l "report_id", match field rep "report_id" with Some v => v | None => JNone end);
        (s2l "waste_type", match field cls "waste_type" with Some v => v | None => JNone end);
        (s2l "severity", match field sev "severity" with Some v => v | None => JNone end);
        (s2l "location", JStr (s2l "Main St")) ]).
Proof.
  split; [vm_compute; reflexivity|].
  apply analyze_image_summary. vm_compute. reflexivity.
Defined.

(** When the image cannot be encoded, the result is the error status with
    the exception's message and no step recorded. *)
Theorem encoding_failure_result rt self w loc notes use_llm e :
  encoded_image w = Raise e ->
  analyze_image rt self w loc notes use_llm =
    JDict [ (s2l "status", JStr (s2l "error")); (s2l "steps", JDict []); (s2l "error", JStr (exn_msg e)) ].
Proof. intros He. unfold analyze_image. rewrite He. reflexivity. Qed.

Lemma encoding_failure_result_witness :
  analyze_image ascii_runtime agent
    (World (Raise encode_failed) (Ok oil_spill_reply) (Ok out_of_table_reply) (Ok a_report_reply) sample_clock)
    [] [] true =
  JDict [ (s2l "status", JStr (s2l "error")); (s2l "steps", JDict []);
          (s2l "error", JStr (s2l "Failed to encode image: cannot identify image file")) ].
Proof. apply (encoding_failure_result ascii_runtime agent _ [] [] true encode_failed). reflexivity. Defined.

(** When the key is set and the LLM request fails with message [msg], the
    model-based severity path returns exactly the rule-based result (no
    [llm_error]), and report generation returns the fallback report whose
    error is ["ERROR: LLM API call failed: " ++ msg]. *)
Theorem llm_request_failure_fallbacks rt cls sev loc notes k post prompt model mt sp msg code clk :
  k <> [] -> post k (payload model (llm_messages prompt sp) mt) = HttpError msg code ->
  estimate_severity_with_llm rt cls loc (call_nemotron_llm (Some k) post prompt model mt sp) =
    estimate_severity_rule_based rt cls /\
  generate_civic_report rt cls sev loc notes (call_nemotron_llm (Some k) post prompt model mt sp) clk =
    (_ <- report_context cls sev ;;
     _create_fallback_report rt cls sev loc (s2l "ERROR: LLM API call failed: " ++ msg) clk).
Proof.
  intros Hk Hp.
  assert (F : failure_signal rt (call_nemotron_llm (Some k) post prompt model mt sp)
                (s2l "ERROR: LLM API call failed: " ++ msg)).
  { exists (request_failed "LLM" msg code). split; [|split].
    - unfold call_nemotron_llm, get_nvidia_api_key. destruct k as [|c k]; [congruence|].
      cbn [length Nat.eqb bind]. rewrite Hp. reflexivity.
    - apply extract_text_request_failed.
    - apply error_text_sentinel. }
  split; [eapply severity_llm_on_signal | eapply report_on_signal]; exact F.
Qed.

Lemma llm_request_failure_fallbacks_witness :
  estimate_severity_with_llm ascii_runtime oil_spill_classification []
    (call_nemotron_llm (Some (s2l "nvapi-x")) (fun _ _ => HttpError (s2l "503 Server Error") (Some 503))
       (s2l "p") (s2l "m") 2048 JNone) =
    estimate_severity_rule_based ascii_runtime oil_spill_classification /\
  generate_civic_report ascii_runtime oil_spill_classification (JDict [(s2l "severity", JStr (s2l "high"))]) [] []
    (call_nemotron_llm (Some (s2l "nvapi-x")) (fun _ _ => HttpError (s2l "503 Server Error") (Some 503))
       (s2l "p") (s2l "m") 2048 JNone) sample_clock =
    (_ <- report_context oil_spill_classification (JDict [(s2l "severity", JStr (s2l "high"))]) ;;
     _create_fallback_report ascii_runtime oil_spill_classification (JDict [(s2l "severity", JStr (s2l "high"))]) []
       (s2l "ERROR: LLM API call failed: 503 Server Error") sample_clock).
Proof. apply llm_request_failure_fallbacks with (code := Some 503); [discriminate | reflexivity]. Defined.









Lemma classify_waste_request_failure_witness :
  classify_waste ascii_runtime
    (call_nemotron_vlm (Some (s2l "nvapi-x")) (fun _ _ => HttpError (s2l "401 Client Error: Unauthorized") (Some 401))
       sample_image (s2l "p") (s2l "m") 1024) =
    Ok (_create_fallback_classification (s2l "ERROR: VLM API call failed: 401 Client Error: Unauthorized")).
Proof. apply classify_waste_request_failure with (code := Some 401); [discriminate | reflexivity]. Defined.




Lemma map_lower_strs rt ts : map_res (py_lower rt) (map JStr ts) = Ok (map (str_lower rt) ts).
Proof. induction ts as [|t ts IH]; simpl; [reflexivity|]. rewrite IH. reflexivity. Qed.

(** The rule engine returns a result for every classification dictionary
    whose [waste_type], [confidence] and [description] are [str]s or absent
    and whose [tags] is a list of [str]s or absent. *)
Theorem rule_based_total rt dc :
  (forall k v, In k (map s2l ["waste_type"; "confidence"; "description"])%string ->
     dict_lookup k dc = Some v -> exists s, v = JStr s) ->
  (forall v, dict_lookup (s2l "tags") dc = Some v -> exists ts, v = JList (map JStr ts)) ->
  exists r, estimate_severity_rule_based rt (JDict dc) = Ok r.
Proof.
  intros Hf Ht. unfold estimate_severity_rule_based. cbn [py_get bind].
  assert (S : forall k dflt, In k (map s2l ["waste_type"; "confidence"; "description"])%string ->
            exists s, py_lower rt (match dict_lookup k dc with Some x => x | None => JStr dflt end) = Ok s).
  { intros k dflt Hk. destruct (dict_lookup k dc) as [v|] eqn:E.
    - destruct (Hf k v Hk E) as [s ->]. eexists; reflexivity.
    - eexists; reflexivity. }
  destruct (S (s2l "waste_type") [] ltac:(left; reflexivity)) as [a Ha]. rewrite Ha. cbn [bind].
  destruct (S (s2l "confidence") (s2l "low") ltac:(right; left; reflexivity)) as [b Hb]. rewrite Hb. cbn [bind].
  destruct (S (s2l "description") [] ltac:(right; right; left; reflexivity)) as [c Hc]. rewrite Hc. cbn [bind].
  assert (T : exists ts, match dict_lookup (s2l "tags") dc with Some x => x | None => JList [] end = JList (map JStr ts)).
  { destruct (dict_lookup (s2l "tags") dc) as [v|]; [apply Ht; reflexivity | exists []; reflexivity]. }
  destruct T as [ts ->]. cbn [py_iter bind]. rewrite map_lower_strs. cbn [bind].
  destruct (severity_level_in_table (confidence_adjust b (keyword_score a c))) as [i Hi].
  rewrite Hi. eexists; reflexivity.
Qed.

Lemma rule_based_total_witness :
  exists r, estimate_severity_rule_based ascii_runtime
    (JDict [ (s2l "waste_type", JStr (s2l "Plastic waste")); (s2l "tags", JList [JStr (s2l "bottle")]) ]) = Ok r.
Proof.
  apply rule_based_total.
  - intros k v Hk Hl. simpl in Hk. repeat destruct Hk as [<-|Hk]; vm_compute in Hl; try discriminate Hl;
      [injection Hl as <-; eexists; reflexivity | contradiction].
  - intros v Hv. vm_compute in Hv. injection Hv as <-. exists [s2l "bottle"]. reflexivity.
Defined.

(** [get_formatted_report] on a results dictionary: [None] when the status
    is not complete; a [KeyError] when it is complete without [steps]; [None]
    when the report step is missing or empty. *)
Theorem get_formatted_report_edges rt self d :
  (dict_lookup (s2l "status") d <> Some (JStr (s2l "complete")) ->
     get_formatted_report rt self (JDict d) = Ok None) /\
  (dict_lookup (s2l "status") d = Some (JStr (s2l "complete")) -> dict_lookup (s2l "steps") d = None ->
     get_formatted_report rt self (JDict d) = Raise (key_error (s2l "steps"))) /\
  (forall st, dict_lookup (s2l "status") d = Some (JStr (s2l "complete")) ->
     dict_lookup (s2l "steps") d = Some (JDict st) ->
     truthy (match dict_lookup (s2l "report") st with Some v => v | None => JNone end) = false ->
     get_formatted_report rt self (JDict d) = Ok None).
Proof.
  unfold get_formatted_report. cbn [py_get bind]. split; [|split].
  - intros H. destruct (dict_lookup (s2l "status") d) as [[| | |s| |]|]; try reflexivity.
    destruct (str_eqb s (s2l "complete")) eqn:E; [|reflexivity].
    apply str_eqb_true in E; subst s; contradiction.
  - intros Hs Hst. rewrite Hs, str_eqb_refl. cbn [negb py_getitem]. rewrite Hst. reflexivity.
  - intros st Hs Hst Hr. rewrite Hs, str_eqb_refl. cbn [negb py_getitem bind py_get]. rewrite Hst.
    cbn [bind py_get]. rewrite Hr. reflexivity.
Qed.

Lemma get_formatted_report_edges_witness :
  get_formatted_report ascii_runtime agent
    (JDict [ (s2l "status", JStr (s2l "complete")); (s2l "steps", JDict [(s2l "report", JDict [])]) ]) = Ok None.
Proof.
  apply (proj2 (proj2 (get_formatted_report_edges ascii_runtime agent _)) [(s2l "report", JDict [])]);
    reflexivity.
Defined.


(** Every report [generate_civic_report] returns is a dictionary whose
    [sections] and [metadata] are dictionaries. *)
Theorem generate_civic_report_shape rt cls sev loc notes call clk r :
  generate_civic_report rt cls sev loc notes call clk = Ok r ->
  exists dr secs meta, r = JDict dr /\
    dict_lookup (s2l "sections") dr = Some (JDict secs) /\
    dict_lookup (s2l "metadata") dr = Some (JDict meta).
Proof. apply generate_ok_shape. Qed.

Lemma generate_civic_report_shape_witness :
  exists dr secs meta,
    ok_value (generate_civic_report ascii_runtime oil_spill_classification (JDict []) [] []
                (Ok a_report_reply) sample_clock) = JDict dr /\
    dict_lookup (s2l "sections") dr = Some (JDict secs) /\
    dict_lookup (s2l "metadata") dr = Some (JDict meta).
Proof.
  apply (generate_civic_report_shape ascii_runtime oil_spill_classification (JDict []) [] []
           (Ok a_report_reply) sample_clock).
  vm_compute. reflexivity.
Defined.
